(** * The Elasticsearch backfill application

    A shallow embedding of [scripts/elasticsearch_backfill_app.py]: the
    class [ElasticsearchBackfillApp] with its methods [main],
    [get_index_for_date], [format_dates_in_crash] and [index_crashes].

    Python exceptions are values of [exn]; a computation that may raise
    returns a [result].  The storage clients are stateful objects: their
    methods take and return the state of the outside world, and every call
    made on them is recorded, in order, in a call log. *)

From Stdlib Require Import Ascii ZArith Lia.
From stdpp Require Import base strings option list gmap fin_maps.

Open Scope Z_scope.

(** ** Exceptions and results *)

(** The exception classes the program can see.  [ISO8601Error] belongs to
    the isodate package; [Exception] stands for any class that is not one of
    the named ones (nor a subclass of them). *)
Inductive exn : Type :=
  | ValueError
  | TypeError
  | ISO8601Error
  | KeyError
  | OverflowError
  | Exception (name : string).

Inductive result (A : Type) : Type :=
  | Ok (a : A)
  | Raise (e : exn).

Arguments Ok {A} a.
Arguments Raise {A} e.

(** ** Values and records *)

(** What [json.loads] builds: the values found in a processed crash.  A
    float is kept as its literal. *)
#[warnings="-register-all"]
Inductive value : Type :=
  | VNone
  | VBool (b : bool)
  | VInt (n : Z)
  | VFloat (literal : string)
  | VStr (s : string)
  | VList (items : list value)
  | VDict (items : list (string * value)).

(** A processed crash is a dict from attribute names to values. *)
Abbreviation record := (gmap string value).

(** ** Calendar days *)

(** A [datetime.date] is held as its proleptic Gregorian ordinal
    ([date.toordinal()]): 0001-01-01 is day 1 and 9999-12-31 is day
    [MAXORDINAL]. *)
Definition date : Type := Z.

Definition MAXORDINAL : Z := 3652059.

Definition valid_date (d : date) : Prop := 1 <= d <= MAXORDINAL.

(** [d + datetime.timedelta(days=n)]: the date class raises [OverflowError]
    when the result leaves its range. *)
Definition date_add_days (d : date) (n : Z) : result date :=
  let o := d + n in
  if (0 <? o) && (o <=? MAXORDINAL) then Ok o else Raise OverflowError.

(** [current_date -= one_day] with [one_day = datetime.timedelta(days=1)]. *)
Definition sub_one_day (current_date : date) : result date :=
  date_add_days current_date (-1).

(** ** Library functions used by the application *)

(** Modelled from the spec: [socorro.lib.datetimeutil], whose functions
    [string_to_datetime] and [date_to_string] are called by
    [format_dates_in_crash] but are not part of the sources at hand.
    [string_to_datetime] attempts to parse a value as a date/time in one of
    the accepted formats and [date_to_string] writes the canonical output
    format; either may raise. *)
Record datetimeutil : Type := {
  datetime : Type;
  string_to_datetime : value -> result datetime;
  date_to_string : datetime -> result string
}.

(** The functions of the Python library the application calls:
    [json.loads] on a raw report and [date.strftime].  The reports stored in
    HBase are JSON objects, so [json_loads] returns a dict or raises (a
    [ValueError] on a malformed payload).  A payload that is valid JSON
    without being an object ([null], a number, a string, a list) is not
    covered: [json.loads] returns a value that is not a dict, on which
    [format_dates_in_crash] has no fields to go through. *)
Record pylib : Type := {
  json_loads : string -> result record;
  strftime : date -> string -> string
}.

(** ** [format_dates_in_crash] *)

Section FormatDates.

Context (dtu : datetimeutil).

(** The [except (ValueError, TypeError, ISO8601Error)] clause. *)
Definition not_a_date (e : exn) : bool :=
  match e with
  | ValueError | TypeError | ISO8601Error => true
  | _ => false
  end.

(** [datetimeutil.date_to_string(datetimeutil.string_to_datetime(v))]. *)
Definition date_string_of (v : value) : result string :=
  match string_to_datetime dtu v with
  | Ok d => date_to_string dtu d
  | Raise e => Raise e
  end.

(** One turn of the loop [for attr in processed_crash]: the assignment
    [processed_crash[attr] = ...] inside its [try]. *)
Definition format_attr (processed_crash : record) (attr : string)
  : result record :=
  match processed_crash !! attr with
  | None => Raise KeyError
  | Some v =>
      match date_string_of v with
      | Ok s => Ok (<[attr := VStr s]> processed_crash)
      | Raise e =>
          if not_a_date e then Ok processed_crash else Raise e
      end
  end.

Fixpoint format_attrs (attrs : list string) (processed_crash : record)
  : result record :=
  match attrs with
  | [] => Ok processed_crash
  | attr :: rest =>
      match format_attr processed_crash attr with
      | Ok processed_crash' => format_attrs rest processed_crash'
      | Raise e => Raise e
      end
  end.

(** The keys are those the dict has when the loop starts; assigning to
    an existing key does not change them. *)
Definition format_dates_in_crash (processed_crash : record)
  : result record :=
  format_attrs (map_to_list processed_crash).*1 processed_crash.

(** What the loop leaves in a field: the canonical text when the value
    parses, the value itself when it is not a date. *)
Definition formatted (v : value) : value :=
  match date_string_of v with
  | Ok s => VStr s
  | Raise _ => v
  end.

(** Modelled from the spec: the contract of the absent helpers on a value
    that is not a date.  Failing to parse it is an expected outcome, which
    they signal by one of the three classes the loop catches and by nothing
    else. *)
Definition date_or_not (v : value) : Prop :=
  ∀ e, date_string_of v = Raise e → not_a_date e = true.

(** Modelled from the spec: the contract of the absent helpers on their
    own output.  The canonical text of a value parses again, and to the
    same text. *)
Definition canonical_stable (v : value) : Prop :=
  ∀ s, date_string_of v = Ok s → date_string_of (VStr s) = Ok s.

End FormatDates.

(** ** The storage clients and the call log *)

(** The calls the application makes on its collaborators, with the
    arguments it passes. *)
Inductive event : Type :=
  | LoggerInfo (msg : string) (arg : string)
  | CreateIndex (es_index : option string)
  | GetListOfProcessedJsonForDate (day : string) (number_of_retries : Z)
  | BulkIndex (es_index : option string) (doctype : string)
      (docs : list record) (id_field : string).

(** Modelled from the spec: the storage clients
    [socorro.external.elasticsearch.crashstorage.ElasticSearchCrashStorage]
    ([create_index], and [es.bulk_index] of its connection) and
    [socorro.external.hbase.hbase_client.HBaseConnectionForCrashReports]
    ([get_list_of_processed_json_for_date]), which are not part of the
    sources at hand.  Each method acts on the state [W] of the outside world
    and either returns or raises; the retry policy of the HBase client is
    inside [get_list_of_processed_json_for_date], which receives the number
    of retries. *)
Record clients (W : Type) : Type := {
  create_index : option string -> W -> result unit * W;
  get_list_of_processed_json_for_date :
    string -> Z -> W -> result (list string) * W;
  bulk_index :
    option string -> string -> list record -> string -> W -> result unit * W
}.

Arguments create_index {W} _ _ _.
Arguments get_list_of_processed_json_for_date {W} _ _ _ _.
Arguments bulk_index {W} _ _ _ _ _ _.

(** The options read from [self.config].  [elasticsearch_index] is [None]
    when the option is unset. *)
Record config : Type := {
  end_date : date;
  duration : Z;
  index_doc_number : Z;
  elasticsearch_index : option string;
  elasticsearch_doctype : string
}.

(** The state a run threads: the outside world and the calls made so far,
    oldest first. *)
Record state (W : Type) : Type := {
  world : W;
  calls : list event
}.

Arguments world {W} _.
Arguments calls {W} _.

Section Run.

Context {W : Type}.

(** A command of the application: it may raise, and the state it leaves
    is kept either way. *)
Definition run (A : Type) : Type := state W -> result A * state W.

Definition ret {A} (a : A) : run A := fun st => (Ok a, st).

Definition bind {A B} (m : run A) (k : A -> run B) : run B :=
  fun st =>
    match m st with
    | (Ok a, st') => k a st'
    | (Raise e, st') => (Raise e, st')
    end.

(** A pure computation that may raise. *)
Definition lift {A} (r : result A) : run A := fun st => (r, st).

(** A call on a collaborator: it is logged, then made. *)
Definition call {A} (ev : event) (method : W -> result A * W) : run A :=
  fun st =>
    let (r, w) := method (world st) in
    (r, {| world := w; calls := calls st ++ [ev] |}).

(** A call on the logger, which only leaves its trace. *)
Definition log (ev : event) : run unit :=
  fun st => (Ok tt, {| world := world st; calls := calls st ++ [ev] |}).

End Run.

Declare Scope run_scope.
Delimit Scope run_scope with run.
Notation "x <- m ;; k" := (bind m (fun x => k))
  (at level 100, m at next level, right associativity) : run_scope.
Notation "m ;; k" := (bind m (fun _ => k))
  (at level 100, right associativity) : run_scope.

(** ** The batch of crashes waiting to be indexed *)

Section Batch.

Context {A : Type}.

(** Lines 98 to 103 of [main] for one crash: when the list already holds
    more than [index_doc_number] crashes it is handed over for indexing
    and a new list is started; the crash is then appended.  The first
    component is the list handed over, if any, the second the list after
    the append. *)
Definition offer (index_doc_number : Z) (crashes_to_index : list A)
    (processed_crash : A) : option (list A) * list A :=
  if index_doc_number <? Z.of_nat (length crashes_to_index)
  then (Some crashes_to_index, [processed_crash])
  else (None, crashes_to_index ++ [processed_crash]).

(** The same for a sequence of crashes: the lists handed over, in order,
    and the list left at the end of the loop. *)
Fixpoint offer_all (index_doc_number : Z) (crashes_to_index : list A)
    (crashes : list A) : list (list A) * list A :=
  match crashes with
  | [] => ([], crashes_to_index)
  | processed_crash :: rest =>
      let (ready, crashes_to_index') :=
        offer index_doc_number crashes_to_index processed_crash in
      let (batches, final) :=
        offer_all index_doc_number crashes_to_index' rest in
      (match ready with Some b => b :: batches | None => batches end,
       final)
  end.

(** Line 105: the list left at the end of the day is indexed when it is
    not empty. *)
Definition flush (crashes_to_index : list A) : option (list A) :=
  if 0 <? Z.of_nat (length crashes_to_index)
  then Some crashes_to_index else None.

(** All the lists indexed for one day's crashes. *)
Definition batches_of_day (index_doc_number : Z) (crashes : list A)
  : list (list A) :=
  let (batches, final) := offer_all index_doc_number [] crashes in
  batches ++ match flush final with Some b => [b] | None => [] end.

End Batch.

(** ** The application *)

Section App.

Context {W : Type}.
Context (py : pylib) (dtu : datetimeutil) (ext : clients W) (cfg : config).

Open Scope run_scope.

(** ['%' in index]. *)
Fixpoint has_percent (index : string) : bool :=
  match index with
  | EmptyString => false
  | String c rest => Ascii.eqb c "%"%char || has_percent rest
  end.

(** [not index] for an option that holds a string or is unset. *)
Definition falsy (index : option string) : bool :=
  match index with
  | None => true
  | Some s => String.eqb s ""
  end.

Definition get_index_for_date (day : date) : option string :=
  let index := elasticsearch_index cfg in
  if falsy index then None
  else
    match index with
    | None => None
    | Some index =>
        if has_percent index then Some (strftime py day index)
        else Some index
    end.

(** The call [index_crashes] makes, as the log keeps it. *)
Definition bulk_call (es_index : option string)
    (crashes_to_index : list record) : event :=
  BulkIndex es_index (elasticsearch_doctype cfg) crashes_to_index "uuid".

Definition index_crashes (es_index : option string)
    (crashes_to_index : list record) : run unit :=
  call (bulk_call es_index crashes_to_index)
       (bulk_index ext es_index (elasticsearch_doctype cfg)
          crashes_to_index "uuid").

(** The loop [for report in reports], started with the list
    [crashes_to_index]; it returns the list the loop leaves. *)
Fixpoint index_reports (es_index : option string) (reports : list string)
    (crashes_to_index : list record) : run (list record) :=
  match reports with
  | [] => ret crashes_to_index
  | report :: rest =>
      decoded <- lift (json_loads py report) ;;
      processed_crash <- lift (format_dates_in_crash dtu decoded) ;;
      let (ready, crashes_to_index') :=
        offer (index_doc_number cfg) crashes_to_index processed_crash in
      (match ready with
       | Some batch => index_crashes es_index batch
       | None => ret tt
       end) ;;
      index_reports es_index rest crashes_to_index'
  end.

(** The body of the loop over the days, up to the update of
    [current_date]. *)
Definition backfill_day (current_date : date) : run unit :=
  let es_index := get_index_for_date current_date in
  let day := strftime py current_date "%y%m%d" in
  log (LoggerInfo "backfilling crashes for %s" day) ;;
  call (CreateIndex es_index) (create_index ext es_index) ;;
  reports <- call (GetListOfProcessedJsonForDate day 5)
               (get_list_of_processed_json_for_date ext day 5) ;;
  crashes_to_index <- index_reports es_index reports [] ;;
  match flush crashes_to_index with
  | Some batch => index_crashes es_index batch
  | None => ret tt
  end.

(** [for i in range(n)] with a given body, each turn ending with
    [current_date -= one_day]. *)
Fixpoint for_days {T : Type} (body : date -> T -> result unit * T)
    (n : nat) (current_date : date) (s : T) : result unit * T :=
  match n with
  | O => (Ok tt, s)
  | S n' =>
      match body current_date s with
      | (Ok _, s') =>
          match sub_one_day current_date with
          | Ok current_date' => for_days body n' current_date' s'
          | Raise e => (Raise e, s')
          end
      | (Raise e, s') => (Raise e, s')
      end
  end.

(** [main], after the two clients have been built. *)
Definition main : run Z :=
  for_days backfill_day (Z.to_nat (duration cfg)) (end_date cfg) ;;
  ret 0.

End App.

(** The days the loop of [main] goes through: each day the body is entered
    with is noted. *)
Definition days (end_date : date) (duration : Z) : result unit * list date :=
  for_days (fun d ds => (Ok tt, ds ++ [d])) (Z.to_nat duration) end_date [].

(** The calls a run adds to the log are read back with these. *)
Definition bulk_docs (ev : event) : list record :=
  match ev with
  | BulkIndex _ _ docs _ => docs
  | _ => []
  end.

(** The crashes sent for indexing, in the order they were sent. *)
Definition indexed (evs : list event) : list record :=
  concat (map bulk_docs evs).

Definition is_create (ev : event) : bool :=
  match ev with CreateIndex _ => true | _ => false end.

Definition is_bulk (ev : event) : bool :=
  match ev with BulkIndex _ _ _ _ => true | _ => false end.

(** A report that decodes and whose dates are formatted without an error
    reaching the caller. *)
Definition processed (py : pylib) (dtu : datetimeutil) (report : string)
  : result record :=
  match json_loads py report with
  | Ok decoded => format_dates_in_crash dtu decoded
  | Raise e => Raise e
  end.

(** Clients whose index never refuses a call. *)
Definition index_accepts {W} (ext : clients W) : Prop :=
  (∀ es_index w, fst (create_index ext es_index w) = Ok tt) ∧
  (∀ es_index doctype docs id_field w,
     fst (bulk_index ext es_index doctype docs id_field w) = Ok tt).

(** The three calls that open a day: the log line, the request for the
    index, the request for the day's reports. *)
Definition opening_calls (py : pylib) (cfg : config) (d : date)
  : list event :=
  [LoggerInfo "backfilling crashes for %s" (strftime py d "%y%m%d");
   CreateIndex (get_index_for_date py cfg d);
   GetListOfProcessedJsonForDate (strftime py d "%y%m%d") 5].

(** The body over a list of days, as [for_days] runs it. *)
Fixpoint over_days {T : Type} (body : date -> T -> result unit * T)
    (ds : list date) (s : T) : result unit * T :=
  match ds with
  | [] => (Ok tt, s)
  | d :: rest =>
      match body d s with
      | (Ok _, s') => over_days body rest s'
      | (Raise e, s') => (Raise e, s')
      end
  end.

(** ** The calendar of [datetime.date]

    The conversions between ordinals and year, month, day that the date
    class performs, used to write dates down and to format them. *)
Module Calendar.

Definition is_leap (year : Z) : bool :=
  (year mod 4 =? 0) && (negb (year mod 100 =? 0) || (year mod 400 =? 0)).

Definition days_before_year (year : Z) : Z :=
  let y := year - 1 in
  y * 365 + y / 4 - y / 100 + y / 400.

Definition days_in_month (year month : Z) : Z :=
  if month =? 2 then (if is_leap year then 29 else 28)
  else if (month =? 4) || (month =? 6) || (month =? 9) || (month =? 11)
       then 30 else 31.

Fixpoint days_before_month_from (year : Z) (k : nat) (month : Z) : Z :=
  match k with
  | O => 0
  | S k' =>
      if Z.of_nat k <? month
      then days_in_month year (Z.of_nat k)
           + days_before_month_from year k' month
      else days_before_month_from year k' month
  end.

Definition days_before_month (year month : Z) : Z :=
  days_before_month_from year 12 month.

(** [datetime.date(year, month, day).toordinal()]. *)
Definition ymd2ord (year month day : Z) : date :=
  days_before_year year + days_before_month year month + day.

(** The month and day of the [n]-th day (from 0) of a year. *)
Fixpoint month_day_from (year : Z) (k : nat) (month n : Z) : Z * Z :=
  match k with
  | O => (month, n + 1)
  | S k' =>
      let dim := days_in_month year month in
      if n <? dim then (month, n + 1)
      else month_day_from year k' (month + 1) (n - dim)
  end.

(** [date.fromordinal(n)] as year, month and day. *)
Definition ord2ymd (n : date) : Z * Z * Z :=
  let n := n - 1 in
  let n400 := n / 146097 in
  let n := n mod 146097 in
  let n100 := n / 36524 in
  let n := n mod 36524 in
  let n4 := n / 1461 in
  let n := n mod 1461 in
  let n1 := n / 365 in
  let n := n mod 365 in
  let year := n400 * 400 + 1 + n100 * 100 + n4 * 4 + n1 in
  if (n1 =? 4) || (n100 =? 4) then (year - 1, 12, 31)
  else let (month, day) := month_day_from year 11 1 n in
       (year, month, day).

Definition digit (n : Z) : ascii := ascii_of_N (Z.to_N (48 + n mod 10)).

Definition two_digits (n : Z) : string :=
  String (digit (n / 10)) (String (digit n) "").

Definition four_digits (n : Z) : string :=
  String (digit (n / 1000)) (String (digit (n / 100)) (two_digits n)).

(** The directives of [strftime] that index names and day keys use;
    any other directive is copied as it stands. *)
Definition directive (year month day : Z) (c : ascii) : string :=
  if Ascii.eqb c "Y" then four_digits year
  else if Ascii.eqb c "y" then two_digits (year mod 100)
  else if Ascii.eqb c "m" then two_digits month
  else if Ascii.eqb c "d" then two_digits day
  else if Ascii.eqb c "%" then "%"
  else String "%" (String c "").

Fixpoint format (year month day : Z) (fmt : string) : string :=
  match fmt with
  | EmptyString => ""
  | String c rest =>
      if Ascii.eqb c "%" then
        match rest with
        | EmptyString => "%"
        | String c' rest' =>
            (directive year month day c' +:+ format year month day rest')
        end
      else String c (format year month day rest)
  end.

Definition strftime (d : date) (fmt : string) : string :=
  let '(year, month, day) := ord2ymd d in
  format year month day fmt.

End Calendar.

(** ** Instances for the examples *)

Module Sample.

(** The places of a date and time written as text: a digit, a fixed
    character, or the separator between date and time, which is read as
    a space or a [T] and written as a [T]. *)
Inductive slot : Type := Digit | Lit (c : ascii) | Sep.

Definition is_digit (c : ascii) : bool :=
  ((48 <=? nat_of_ascii c) && (nat_of_ascii c <=? 57))%nat.

Definition accepts (p : slot) (c : ascii) : bool :=
  match p with
  | Digit => is_digit c
  | Lit l => Ascii.eqb c l
  | Sep => Ascii.eqb c " " || Ascii.eqb c "T"
  end.

Definition writes (p : slot) (c : ascii) : ascii :=
  match p with
  | Digit => c
  | Lit l => l
  | Sep => "T"%char
  end.

Fixpoint parse_with (pat : list slot) (s : string) : option string :=
  match pat, s with
  | [], EmptyString => Some EmptyString
  | p :: pat', String c s' =>
      if accepts p c
      then match parse_with pat' s' with
           | Some t => Some (String (writes p c) t)
           | None => None
           end
      else None
  | _, _ => None
  end.

(** [YYYY-MM-DD HH:MM:SS], with a space or a [T] in the middle. *)
Definition timestamp : list slot :=
  [Digit; Digit; Digit; Digit; Lit "-"; Digit; Digit; Lit "-";
   Digit; Digit; Sep; Digit; Digit; Lit ":"; Digit; Digit; Lit ":";
   Digit; Digit].

(** Modelled from the spec: an instance of the absent
    [socorro.lib.datetimeutil] for the examples.  It accepts a string
    [YYYY-MM-DD HH:MM:SS] or [YYYY-MM-DDTHH:MM:SS] and writes the second
    form; [None] is a [TypeError] and anything else a [ValueError]. *)
Definition dtu : datetimeutil := {|
  datetime := string;
  string_to_datetime v :=
    match v with
    | VStr s =>
        match parse_with timestamp s with
        | Some t => Ok t
        | None => Raise ValueError
        end
    | VNone => Raise TypeError
    | _ => Raise ValueError
    end;
  date_to_string t := Ok t
|}.

(** What the sample index holds: the names of the indices created and
    the documents written, newest last. *)
Record memory : Type := {
  indices : list (option string);
  documents : list (option string * record)
}.

Definition empty_memory : memory := {| indices := []; documents := [] |}.

Fixpoint lookup_day {A} (table : list (string * A)) (day : string)
  : option A :=
  match table with
  | [] => None
  | (k, a) :: rest => if String.eqb k day then Some a else lookup_day rest day
  end.

(** Modelled from the spec: an instance of the absent storage clients
    for the examples.  The index keeps what it is given in a [memory]
    and accepts every call; the source answers from a table of days,
    each with the raw reports it returns or the error it raises when its
    retries are spent, and has no report for any other day. *)
Definition ext (hbase : list (string * result (list string)))
  : clients memory := {|
  create_index es_index w :=
    (Ok tt,
     {| indices := indices w ++ [es_index]; documents := documents w |});
  get_list_of_processed_json_for_date day number_of_retries w :=
    (match lookup_day hbase day with
     | Some r => r
     | None => Ok []
     end, w);
  bulk_index es_index doctype docs id_field w :=
    (Ok tt,
     {| indices := indices w;
        documents := documents w ++ map (pair es_index) docs |})
|}.

(** A processed crash as HBase stores it, given its identifier and the
    value of its [date_processed] field. *)
Definition crash (uuid : string) (date_processed : value) : record :=
  <[ "uuid" := VStr uuid ]>
    (<[ "date_processed" := date_processed ]>
       (<[ "build" := VStr "20240301" ]> (<[ "hang" := VNone ]> ∅))).

(** The raw reports of the examples, each standing for the JSON text of
    one crash, and a payload that is not JSON. *)
Definition raw1 : string := "report c1".
Definition raw2 : string := "report c2".
Definition raw3 : string := "report c3".
Definition malformed : string := "{not json".

(** [json.loads] on the payloads of the examples: what the three reports
    decode to; any other payload is refused as malformed. *)
Definition loads (report : string) : result record :=
  if String.eqb report raw1
  then Ok (crash "c1" (VStr "2024-03-10 01:02:03"))
  else if String.eqb report raw2
  then Ok (crash "c2" (VStr "2024-03-10T04:05:06"))
  else if String.eqb report raw3
  then Ok (crash "c3" (VStr ""))
  else Raise ValueError.

Definition py : pylib := {|
  json_loads := loads;
  strftime := Calendar.strftime
|}.

Definition cfg (last : date) (days threshold : Z)
    (template : option string) : config := {|
  end_date := last;
  duration := days;
  index_doc_number := threshold;
  elasticsearch_index := template;
  elasticsearch_doctype := "crash_reports"
|}.

Definition start : state memory :=
  {| world := empty_memory; calls := [] |}.

Definition march_10 : date := Calendar.ymd2ord 2024 3 10.
Definition march_9 : date := Calendar.ymd2ord 2024 3 9.

(** The three crashes once their dates are formatted. *)
Definition crash1 : record := crash "c1" (VStr "2024-03-10T01:02:03").
Definition crash2 : record := crash "c2" (VStr "2024-03-10T04:05:06").
Definition crash3 : record := crash "c3" (VStr "").

(** Three reports for 2024-03-10 and none for 2024-03-09. *)
Definition hbase : list (string * result (list string)) :=
  [("240310", Ok [raw1; raw2; raw3]); ("240309", Ok [])].

(** The source gives up on 2024-03-10 after its retries. *)
Definition hbase_down : list (string * result (list string)) :=
  [("240310", Raise (Exception "FatalException")); ("240309", Ok [raw3])].

(** The second report of 2024-03-10 is not valid JSON. *)
Definition hbase_malformed : list (string * result (list string)) :=
  [("240310", Ok [raw1; malformed; raw3]); ("240309", Ok [raw2])].

End Sample.

(** ** What a run is expected to leave in the log *)

(** The calls [main] can make, with the arguments that are fixed in its
    text: the message of the log line, [number_of_retries=5], the
    configured doctype and [id_field='uuid']. *)
Definition expected_call (cfg : config) (ev : event) : Prop :=
  match ev with
  | LoggerInfo msg _ => msg = "backfilling crashes for %s"
  | CreateIndex _ => True
  | GetListOfProcessedJsonForDate _ number_of_retries =>
      number_of_retries = 5
  | BulkIndex _ doctype _ id_field =>
      doctype = elasticsearch_doctype cfg ∧ id_field = "uuid"
  end.

(** The calls of a day that goes well, given its processed crashes: the
    opening calls, then one bulk write to the day's index for each list
    of [batches_of_day]. *)
Definition day_calls (py : pylib) (cfg : config) (d : date)
    (crashes : list record) : list event :=
  opening_calls py cfg d ++
  map (bulk_call cfg (get_index_for_date py cfg d))
    (batches_of_day (index_doc_number cfg) crashes).

(** ** Instances for the error paths *)

Module Faulty.

(** Modelled from the spec: an instance of the absent
    [socorro.lib.datetimeutil] that does not keep to the three classes
    the loop catches.  It is the sample instance, except that a number is
    taken for a timestamp out of range and raises [OverflowError]. *)
Definition dtu : datetimeutil := {|
  datetime := string;
  string_to_datetime v :=
    match v with
    | VInt _ => Raise OverflowError
    | _ => string_to_datetime Sample.dtu v
    end;
  date_to_string t := Ok t
|}.

(** Modelled from the spec: an instance of the absent storage clients
    whose index can refuse a call.  It refuses to create an index without
    a name, and it holds at most [capacity] documents: a bulk write that
    would exceed it is refused as a whole.  The source is the sample
    one. *)
Definition ext (capacity : nat)
    (hbase : list (string * result (list string)))
  : clients Sample.memory := {|
  create_index es_index w :=
    match es_index with
    | None => (Raise (Exception "ElasticHttpError"), w)
    | Some _ => create_index (Sample.ext hbase) es_index w
    end;
  get_list_of_processed_json_for_date :=
    get_list_of_processed_json_for_date (Sample.ext hbase);
  bulk_index es_index doctype docs id_field w :=
    if (length (Sample.documents w) + length docs <=? capacity)%nat
    then bulk_index (Sample.ext hbase) es_index doctype docs id_field w
    else (Raise (Exception "ElasticHttpError"), w)
|}.

(** A crash with a numeric field, and the raw report that decodes to
    it. *)
Definition crash_with_number : record :=
  <[ "uptime" := VInt 1200 ]> (Sample.crash "c4" (VStr "2024-03-10 07:08:09")).

Definition raw4 : string := "report c4".

Definition loads (report : string) : result record :=
  if String.eqb report raw4 then Ok crash_with_number
  else Sample.loads report.

Definition py : pylib := {|
  json_loads := loads;
  strftime := Calendar.strftime
|}.

(** The third report of 2024-03-10 holds a number. *)
Definition hbase_number : list (string * result (list string)) :=
  [("240310", Ok [Sample.raw1; Sample.raw2; raw4; Sample.raw3])].

End Faulty.

(** * Properties *)

(** The calendar agrees with [datetime.date] on these days, both ways. *)
Example calendar_samples :
  Calendar.ymd2ord 1 1 1 = 1 ∧
  Calendar.ymd2ord 1900 3 1 = 693655 ∧
  Calendar.ymd2ord 2000 2 29 = 730179 ∧
  Calendar.ymd2ord 2024 3 10 = 738955 ∧
  Calendar.ymd2ord 9999 12 31 = MAXORDINAL ∧
  Calendar.ord2ymd 1 = (1, 1, 1) ∧
  Calendar.ord2ymd 693655 = (1900, 3, 1) ∧
  Calendar.ord2ymd 730179 = (2000, 2, 29) ∧
  Calendar.ord2ymd 738885 = (2023, 12, 31) ∧
  Calendar.ord2ymd 738955 = (2024, 3, 10) ∧
  Calendar.ord2ymd MAXORDINAL = (9999, 12, 31).
Proof. repeat split; reflexivity. Qed.

Example strftime_samples :
  Calendar.strftime 738955 "%y%m%d" = "240310" ∧
  Calendar.strftime 738954 "%y%m%d" = "240309" ∧
  Calendar.strftime 738955 "socorro%Y%m%d" = "socorro20240310".
Proof. repeat split; reflexivity. Qed.

(** ** Formatting the dates of a crash *)

Section FormatDatesFacts.

Context (dtu : datetimeutil).

Lemma formatted_ok v s :
  date_string_of dtu v = Ok s → formatted dtu v = VStr s.
Proof. unfold formatted. by intros ->. Qed.

Lemma formatted_raise v e :
  date_string_of dtu v = Raise e → formatted dtu v = v.
Proof. unfold formatted. by intros ->. Qed.

(** One assignment: the field holds its formatted value afterwards and no
    other field is touched. *)
Lemma format_attr_ok (r : record) attr v :
  r !! attr = Some v →
  date_or_not dtu v →
  ∃ r', format_attr dtu r attr = Ok r' ∧
        ∀ k, r' !! k =
             if decide (k = attr) then Some (formatted dtu v) else r !! k.
Proof.
  intros Hv Hsafe. unfold format_attr. rewrite Hv.
  destruct (date_string_of dtu v) as [s|e] eqn:Hs.
  - eexists. split; [reflexivity|]. intros k.
    rewrite (formatted_ok _ _ Hs).
    destruct (decide (k = attr)) as [->|Hne].
    + by rewrite lookup_insert_eq.
    + by rewrite lookup_insert_ne.
  - rewrite (Hsafe e Hs). eexists. split; [reflexivity|]. intros k.
    rewrite (formatted_raise _ _ Hs).
    destruct (decide (k = attr)) as [->|Hne]; done.
Qed.

(** The loop over a list of distinct keys of the dict. *)
Lemma format_attrs_ok attrs : ∀ r : record,
  NoDup attrs →
  (∀ k, k ∈ attrs → ∃ v, r !! k = Some v ∧ date_or_not dtu v) →
  ∃ r', format_attrs dtu attrs r = Ok r' ∧
        ∀ k, r' !! k =
             if decide (k ∈ attrs) then formatted dtu <$> r !! k
             else r !! k.
Proof.
  induction attrs as [|attr rest IH]; intros r Hnd Hin.
  - exists r. split; [reflexivity|]. intros k.
    destruct (decide (k ∈ [])) as [Hk|_]; [|done].
    by apply elem_of_nil in Hk.
  - destruct (Hin attr) as (v & Hv & Hsafe); [by left|].
    destruct (format_attr_ok r attr v Hv Hsafe) as (r1 & Hr1 & Hlook1).
    pose proof (NoDup_cons_1_1 _ _ Hnd) as Hfresh.
    pose proof (NoDup_cons_1_2 _ _ Hnd) as Hnd'.
    destruct (IH r1 Hnd') as (r' & Hr' & Hlook').
    { intros k Hk. destruct (Hin k) as (u & Hu & Hsu); [by right|].
      exists u. split; [|done]. rewrite Hlook1.
      destruct (decide (k = attr)) as [->|_]; [done|done]. }
    exists r'. split.
    { simpl. by rewrite Hr1. }
    intros k. rewrite Hlook', !Hlook1.
    destruct (decide (k = attr)) as [->|Hne].
    + destruct (decide (attr ∈ rest)) as [?|_]; [done|].
      destruct (decide (attr ∈ attr :: rest)) as [_|Hn].
      * by rewrite Hv.
      * exfalso. apply Hn. by left.
    + destruct (decide (k ∈ rest)) as [Hk|Hk];
        destruct (decide (k ∈ attr :: rest)) as [Hk'|Hk']; try done.
      * exfalso. apply Hk'. by right.
      * apply elem_of_cons in Hk' as [?|?]; done.
Qed.

(** The whole function, on a dict whose values raise nothing the loop
    does not catch: every field is replaced by its formatted value. *)
Lemma format_dates_in_crash_ok (r : record) :
  (∀ k v, r !! k = Some v → date_or_not dtu v) →
  format_dates_in_crash dtu r = Ok (formatted dtu <$> r).
Proof.
  intros Hsafe. unfold format_dates_in_crash.
  destruct (format_attrs_ok (map_to_list r).*1 r) as (r' & Hr' & Hlook).
  - apply NoDup_fst_map_to_list.
  - intros k Hk. apply list_elem_of_fmap in Hk as ([k' v] & -> & Hkv).
    apply elem_of_map_to_list in Hkv. exists v. split; [done|].
    by apply (Hsafe k').
  - rewrite Hr'. f_equal. apply map_eq. intros k.
    rewrite Hlook, lookup_fmap.
    destruct (decide (k ∈ (map_to_list r).*1)) as [_|Hk]; [done|].
    destruct (r !! k) as [v|] eqn:Hv; [|done].
    exfalso. apply Hk. apply list_elem_of_fmap. exists (k, v).
    split; [done|]. by apply elem_of_map_to_list.
Qed.

(** Formatting a formatted value changes nothing, when canonical texts
    are stable. *)
Lemma formatted_idem v :
  canonical_stable dtu v → formatted dtu (formatted dtu v) = formatted dtu v.
Proof.
  intros Hst. destruct (date_string_of dtu v) as [s|e] eqn:Hs.
  - rewrite (formatted_ok _ _ Hs). apply formatted_ok. by apply Hst.
  - by rewrite !(formatted_raise _ _ Hs).
Qed.

Lemma formatted_date_or_not v :
  date_or_not dtu v → canonical_stable dtu v →
  date_or_not dtu (formatted dtu v).
Proof.
  intros Hsafe Hst. destruct (date_string_of dtu v) as [s|e] eqn:Hs.
  - rewrite (formatted_ok _ _ Hs). intros e He.
    rewrite (Hst s Hs) in He. discriminate.
  - by rewrite (formatted_raise _ _ Hs).
Qed.

End FormatDatesFacts.

(** The sample [datetimeutil] honours the contract: it raises nothing but
    [ValueError] and [TypeError], and what it writes it reads back. *)

Lemma sample_accepts_writes p c :
  Sample.accepts p c = true →
  Sample.accepts p (Sample.writes p c) = true ∧
  Sample.writes p (Sample.writes p c) = Sample.writes p c.
Proof.
  destruct p as [|l|]; simpl; intros H; split; try done.
  apply Ascii.eqb_refl.
Qed.

Lemma sample_parse_with_stable pat : ∀ s t,
  Sample.parse_with pat s = Some t → Sample.parse_with pat t = Some t.
Proof.
  induction pat as [|p pat IH]; intros [|c s] t; simpl; try done.
  { by intros [= <-]. }
  destruct (Sample.accepts p c) eqn:Hacc; [|done].
  destruct (Sample.parse_with pat s) as [t'|] eqn:Ht'; [|done].
  intros [= <-]. simpl.
  destruct (sample_accepts_writes p c Hacc) as [-> ->].
  by rewrite (IH s t' Ht').
Qed.

Lemma sample_date_string_of_str s :
  date_string_of Sample.dtu (VStr s) =
  match Sample.parse_with Sample.timestamp s with
  | Some t => Ok t
  | None => Raise ValueError
  end.
Proof.
  unfold date_string_of. cbn [string_to_datetime date_to_string Sample.dtu].
  by destruct (Sample.parse_with Sample.timestamp s).
Qed.

Lemma sample_date_or_not v : date_or_not Sample.dtu v.
Proof.
  intros e. destruct v as [| | | |s| |]; try (by intros [= <-]).
  rewrite sample_date_string_of_str.
  destruct (Sample.parse_with Sample.timestamp s); [done|].
  by intros [= <-].
Qed.

Lemma sample_canonical_stable v : canonical_stable Sample.dtu v.
Proof.
  intros t. destruct v as [| | | |s| |]; try done.
  rewrite !sample_date_string_of_str.
  destruct (Sample.parse_with Sample.timestamp s) as [t'|] eqn:Ht'; [|done].
  intros [= <-]. by rewrite (sample_parse_with_stable _ _ _ Ht').
Qed.

(** C5. Formatting the dates of a crash twice gives what formatting them
    once gives, and a field whose value is not read as a date (the helpers
    raise on it) keeps its value, as does a field that already holds its
    canonical text.  The helpers are those of the absent [datetimeutil],
    under their contract: on the values of the crash they raise only what
    the loop catches, and the canonical text of a value is read back to the
    same text. *)
Theorem format_dates_idempotent (dtu : datetimeutil) (r : record) :
  (∀ k v, r !! k = Some v → date_or_not dtu v ∧ canonical_stable dtu v) →
  ∃ r' : record,
    format_dates_in_crash dtu r = Ok r' ∧
    format_dates_in_crash dtu r' = Ok r' ∧
    (∀ k v e, r !! k = Some v → date_string_of dtu v = Raise e →
              r' !! k = Some v) ∧
    (∀ k s, r !! k = Some (VStr s) → date_string_of dtu (VStr s) = Ok s →
            r' !! k = Some (VStr s)).
Proof.
  intros H. exists (formatted dtu <$> r). repeat split.
  - apply format_dates_in_crash_ok. intros k v Hv. by apply (H k v).
  - rewrite format_dates_in_crash_ok.
    + f_equal. apply map_eq. intros k. rewrite !lookup_fmap.
      destruct (r !! k) as [v|] eqn:Hv; [|done]. simpl.
      f_equal. apply formatted_idem. by apply (H k v).
    + intros k u. rewrite lookup_fmap.
      destruct (r !! k) as [v|] eqn:Hv; [|done]. simpl. intros [= <-].
      destruct (H k v Hv). by apply formatted_date_or_not.
  - intros k v e Hv He. rewrite lookup_fmap, Hv. simpl.
    by rewrite (formatted_raise _ _ _ He).
  - intros k s Hv Hs. rewrite lookup_fmap, Hv. simpl.
    by rewrite (formatted_ok _ _ _ Hs).
Qed.

Lemma format_dates_idempotent_witness :
  ∃ r' : record,
    format_dates_in_crash Sample.dtu
      (Sample.crash "c1" (VStr "2024-03-10 01:02:03")) = Ok r' ∧
    format_dates_in_crash Sample.dtu r' = Ok r' ∧
    (∀ k v e,
       Sample.crash "c1" (VStr "2024-03-10 01:02:03") !! k = Some v →
       date_string_of Sample.dtu v = Raise e → r' !! k = Some v) ∧
    (∀ k s,
       Sample.crash "c1" (VStr "2024-03-10 01:02:03") !! k = Some (VStr s) →
       date_string_of Sample.dtu (VStr s) = Ok s → r' !! k = Some (VStr s)).
Proof.
  apply (format_dates_idempotent Sample.dtu
           (Sample.crash "c1" (VStr "2024-03-10 01:02:03"))).
  intros k v _. split.
  - apply sample_date_or_not.
  - apply sample_canonical_stable.
Defined.

(** C6. Formatting the dates of a crash returns a dict with the same keys
    for every crash, and a value that is not read as a date (a numeric
    string, an empty string, [None]) is left as it is: no error reaches
    the caller because a field is not a date.  The helpers are those of the
    absent [datetimeutil], which signal a value that is not a date by one
    of the three exceptions the loop catches. *)
Theorem format_dates_total (dtu : datetimeutil) (r : record) :
  (∀ k v, r !! k = Some v → date_or_not dtu v) →
  ∃ r' : record,
    format_dates_in_crash dtu r = Ok r' ∧
    dom r' = dom r ∧
    (∀ k v e, r !! k = Some v → date_string_of dtu v = Raise e →
              r' !! k = Some v).
Proof.
  intros H. exists (formatted dtu <$> r). repeat split.
  - by apply format_dates_in_crash_ok.
  - apply dom_fmap_L.
  - intros k v e Hv He. rewrite lookup_fmap, Hv. simpl.
    by rewrite (formatted_raise _ _ _ He).
Qed.

Lemma format_dates_total_witness :
  ∃ r' : record,
    format_dates_in_crash Sample.dtu (Sample.crash "c3" (VStr "")) = Ok r' ∧
    dom r' = dom (Sample.crash "c3" (VStr "")) ∧
    (∀ k v e, Sample.crash "c3" (VStr "") !! k = Some v →
              date_string_of Sample.dtu v = Raise e → r' !! k = Some v).
Proof.
  apply (format_dates_total Sample.dtu (Sample.crash "c3" (VStr ""))).
  intros k v _. apply sample_date_or_not.
Defined.

(** The sample crash, formatted: the date is rewritten, the numeric
    string, the empty string and [None] stay. *)
Example format_dates_sample :
  format_dates_in_crash Sample.dtu
    (Sample.crash "c1" (VStr "2024-03-10 01:02:03"))
  = Ok (Sample.crash "c1" (VStr "2024-03-10T01:02:03")).
Proof. vm_compute. reflexivity. Qed.

Example format_dates_sample_empty :
  format_dates_in_crash Sample.dtu (Sample.crash "c3" (VStr ""))
  = Ok (Sample.crash "c3" (VStr "")).
Proof. vm_compute. reflexivity. Qed.

(** ** The batch of crashes waiting to be indexed *)

Section BatchFacts.

Context {A : Type}.
Implicit Types (t : Z) (pending crashes : list A) (r : A).

Lemma offer_over t pending r :
  t < Z.of_nat (length pending) →
  offer t pending r = (Some pending, [r]).
Proof.
  intros H. unfold offer.
  by destruct (Z.ltb_spec t (Z.of_nat (length pending))); [|lia].
Qed.

Lemma offer_under t pending r :
  Z.of_nat (length pending) ≤ t →
  offer t pending r = (None, pending ++ [r]).
Proof.
  intros H. unfold offer.
  by destruct (Z.ltb_spec t (Z.of_nat (length pending))); [lia|].
Qed.

Lemma offer_all_app t crashes1 : ∀ pending crashes2,
  offer_all t pending (crashes1 ++ crashes2) =
  let (batches1, pending1) := offer_all t pending crashes1 in
  let (batches2, pending2) := offer_all t pending1 crashes2 in
  (batches1 ++ batches2, pending2).
Proof.
  induction crashes1 as [|r crashes1 IH]; intros pending crashes2; simpl.
  - by destruct (offer_all t pending crashes2).
  - destruct (offer t pending r) as [ready pending'].
    rewrite IH.
    destruct (offer_all t pending' crashes1) as [batches1 pending1].
    destruct (offer_all t pending1 crashes2) as [batches2 pending2].
    by destruct ready.
Qed.

(** While the list holds no more than [t + 1] crashes, none is handed
    over. *)
Lemma offer_all_under t crashes : ∀ pending,
  Z.of_nat (length pending + length crashes) ≤ t + 1 →
  offer_all t pending crashes = ([], pending ++ crashes).
Proof.
  induction crashes as [|r crashes IH]; intros pending H; simpl.
  - by rewrite app_nil_r.
  - simpl in H. rewrite offer_under by lia.
    rewrite IH.
    + by rewrite <- app_assoc.
    + rewrite length_app. simpl. lia.
Qed.

(** Nothing is lost, repeated or moved: the lists handed over, followed
    by the list left, are the crashes in the order they came. *)
Lemma offer_all_concat t crashes : ∀ pending,
  concat (fst (offer_all t pending crashes))
    ++ snd (offer_all t pending crashes)
  = pending ++ crashes.
Proof.
  induction crashes as [|r crashes IH]; intros pending; simpl.
  - by rewrite app_nil_r.
  - unfold offer.
    destruct (t <? Z.of_nat (length pending)).
    + specialize (IH [r]).
      destruct (offer_all t [r] crashes) as [batches final]. simpl in *.
      by rewrite <- app_assoc, IH.
    + specialize (IH (pending ++ [r])).
      destruct (offer_all t (pending ++ [r]) crashes) as [batches final].
      simpl in *. by rewrite IH, <- app_assoc.
Qed.

Lemma flush_concat pending :
  concat (match flush pending with Some b => [b] | None => [] end)
  = pending.
Proof.
  unfold flush. destruct pending as [|r pending]; simpl; [done|].
  by rewrite app_nil_r.
Qed.

Lemma batches_of_day_concat t crashes :
  concat (batches_of_day t crashes) = crashes.
Proof.
  unfold batches_of_day.
  pose proof (offer_all_concat t crashes []) as H.
  destruct (offer_all t [] crashes) as [batches final]. simpl in H.
  by rewrite concat_app, flush_concat.
Qed.

End BatchFacts.

(** C2, as the code has it.  A crash is appended to the pending list
    after the test: the list pending before the offer is handed over
    exactly when its length strictly exceeds the threshold, and the crash
    then starts the new list.  So with threshold [t], offering [t + 1]
    crashes (or fewer) hands over nothing and leaves them all pending, and
    one more crash hands over exactly one list, the first [t + 1]; a day
    of exactly [t + 1] crashes is indexed as one list, at the end of the
    day. *)
Theorem offer_threshold {A : Type} (t : Z) (crashes : list A) (r : A) :
  0 ≤ t →
  Z.of_nat (length crashes) = t + 1 →
  (∀ pending : list A,
     (t < Z.of_nat (length pending) ∧
      offer t pending r = (Some pending, [r])) ∨
     (Z.of_nat (length pending) ≤ t ∧
      offer t pending r = (None, pending ++ [r]))) ∧
  (∀ fewer : list A, (length fewer ≤ length crashes)%nat →
     offer_all t [] fewer = ([], fewer)) ∧
  offer_all t [] (crashes ++ [r]) = ([crashes], [r]) ∧
  batches_of_day t crashes = [crashes].
Proof.
  intros Ht Hlen. repeat split.
  - intros pending.
    destruct (Z.lt_ge_cases t (Z.of_nat (length pending))) as [H|H].
    + left. split; [done|]. by apply offer_over.
    + right. split; [done|]. by apply offer_under.
  - intros fewer Hfewer. apply (offer_all_under t fewer []). simpl. lia.
  - rewrite offer_all_app.
    rewrite (offer_all_under t crashes []) by (simpl; lia).
    simpl. rewrite offer_over by lia. done.
  - unfold batches_of_day.
    rewrite (offer_all_under t crashes []) by (simpl; lia).
    unfold flush. simpl.
    by destruct (Z.ltb_spec 0 (Z.of_nat (length crashes))); [|lia].
Qed.

Lemma offer_threshold_witness :
  (∀ pending : list nat,
     (1 < Z.of_nat (length pending) ∧
      offer 1 pending 30%nat = (Some pending, [30%nat])) ∨
     (Z.of_nat (length pending) ≤ 1 ∧
      offer 1 pending 30%nat = (None, pending ++ [30%nat]))) ∧
  (∀ fewer : list nat, (length fewer ≤ length [10%nat; 20%nat])%nat →
     offer_all 1 [] fewer = ([], fewer)) ∧
  offer_all 1 [] ([10%nat; 20%nat] ++ [30%nat])
  = ([[10%nat; 20%nat]], [30%nat]) ∧
  batches_of_day 1 [10%nat; 20%nat] = [[10%nat; 20%nat]].
Proof.
  apply (offer_threshold 1 [10%nat; 20%nat] 30%nat).
  - lia.
  - reflexivity.
Defined.


(** ** The loop over the reports of a day *)

Section AppFacts.

Context {W : Type}.
Context (py : pylib) (dtu : datetimeutil) (ext : clients W) (cfg : config).

Implicit Types (st : state W) (es_index : option string).

Lemma index_crashes_ok es_index batch st :
  index_accepts ext →
  ∃ w, index_crashes ext cfg es_index batch st =
       (Ok tt, {| world := w;
                  calls := calls st ++ [bulk_call cfg es_index batch] |}).
Proof.
  intros [_ Hbulk]. unfold index_crashes, call.
  specialize (Hbulk es_index (elasticsearch_doctype cfg) batch "uuid"
                (world st)).
  destruct (bulk_index ext es_index (elasticsearch_doctype cfg) batch
              "uuid" (world st)) as [r w].
  simpl in Hbulk. subst r. by exists w.
Qed.

Lemma index_reports_cons es_index report rest pending st :
  index_reports py dtu ext cfg es_index (report :: rest) pending st =
  match json_loads py report with
  | Ok decoded =>
      match format_dates_in_crash dtu decoded with
      | Ok processed_crash =>
          match fst (offer (index_doc_number cfg) pending processed_crash)
          with
          | Some batch =>
              match index_crashes ext cfg es_index batch st with
              | (Ok _, st') =>
                  index_reports py dtu ext cfg es_index rest
                    (snd (offer (index_doc_number cfg) pending
                            processed_crash)) st'
              | (Raise e, st') => (Raise e, st')
              end
          | None =>
              index_reports py dtu ext cfg es_index rest
                (snd (offer (index_doc_number cfg) pending
                        processed_crash)) st
          end
      | Raise e => (Raise e, st)
      end
  | Raise e => (Raise e, st)
  end.
Proof.
  simpl. unfold bind at 1. unfold lift at 1.
  destruct (json_loads py report) as [decoded|e]; [|done].
  unfold bind at 1. unfold lift at 1.
  destruct (format_dates_in_crash dtu decoded) as [crash|e]; [|done].
  destruct (offer (index_doc_number cfg) pending crash) as [[batch|] p'];
    simpl; unfold bind; [|done].
  by destruct (index_crashes ext cfg es_index batch st) as [[[]|e] st'].
Qed.

(** The loop over [reports1 ++ reports2] is the loop over [reports1]
    followed by the loop over [reports2]. *)
Lemma index_reports_app es_index reports1 : ∀ reports2 pending st,
  index_reports py dtu ext cfg es_index (reports1 ++ reports2) pending st =
  match index_reports py dtu ext cfg es_index reports1 pending st with
  | (Ok pending', st') =>
      index_reports py dtu ext cfg es_index reports2 pending' st'
  | (Raise e, st') => (Raise e, st')
  end.
Proof.
  induction reports1 as [|report rest IH]; intros reports2 pending st.
  - done.
  - rewrite <- app_comm_cons, !index_reports_cons.
    destruct (json_loads py report) as [decoded|e]; [|done].
    destruct (format_dates_in_crash dtu decoded) as [crash|e]; [|done].
    destruct (fst (offer (index_doc_number cfg) pending crash)).
    + destruct (index_crashes ext cfg es_index l st) as [[[]|e] st'];
        [apply IH|done].
    + apply IH.
Qed.

(** A report that does not decode stops the loop where it stands: no
    call is made, the pending crashes are not indexed and the reports
    after it are not read. *)
Lemma index_reports_malformed es_index report rest pending st e :
  json_loads py report = Raise e →
  index_reports py dtu ext cfg es_index (report :: rest) pending st
  = (Raise e, st).
Proof. intros H. by rewrite index_reports_cons, H. Qed.

(** When every report is processed without error and the index accepts
    every call, the loop indexes the lists [offer_all] hands over and
    returns the list it leaves. *)
Lemma index_reports_ok es_index reports crashes :
  index_accepts ext →
  Forall2 (λ report crash, processed py dtu report = Ok crash)
    reports crashes →
  ∀ pending st, ∃ w,
    index_reports py dtu ext cfg es_index reports pending st =
    (Ok (snd (offer_all (index_doc_number cfg) pending crashes)),
     {| world := w;
        calls := calls st ++
                 map (bulk_call cfg es_index)
                   (fst (offer_all (index_doc_number cfg) pending
                           crashes)) |}).
Proof.
  intros Hacc Hall.
  induction Hall as [|report crash reports crashes Hp _ IH];
    intros pending st.
  - exists (world st). simpl. unfold ret. rewrite app_nil_r.
    by destruct st.
  - rewrite index_reports_cons. unfold processed in Hp.
    destruct (json_loads py report) as [decoded|e]; [|done].
    rewrite Hp. simpl.
    destruct (offer (index_doc_number cfg) pending crash)
      as [[batch|] pending'] eqn:Hoffer; simpl.
    + destruct (index_crashes_ok es_index batch st Hacc) as [w1 ->].
      destruct (IH pending' {| world := w1;
                               calls := calls st ++
                                        [bulk_call cfg es_index batch] |})
        as [w ->].
      exists w.
      destruct (offer_all (index_doc_number cfg) pending' crashes)
        as [batches final].
      simpl. by rewrite <- app_assoc.
    + destruct (IH pending' st) as [w ->]. exists w.
      by destruct (offer_all (index_doc_number cfg) pending' crashes)
        as [batches final].
Qed.

End AppFacts.

(** ** One day, and the loop over the days *)

Section DayFacts.

Context {W : Type}.
Context (py : pylib) (dtu : datetimeutil) (ext : clients W) (cfg : config).

Implicit Types (st : state W) (d : date) (es_index : option string).

(** The body of the loop, call by call. *)
Lemma backfill_day_eq d st :
  backfill_day py dtu ext cfg d st =
  match create_index ext (get_index_for_date py cfg d) (world st) with
  | (Ok _, w1) =>
      match get_list_of_processed_json_for_date ext
              (strftime py d "%y%m%d") 5 w1 with
      | (Ok reports, w2) =>
          match index_reports py dtu ext cfg (get_index_for_date py cfg d)
                  reports []
                  {| world := w2;
                     calls := calls st ++ opening_calls py cfg d |}
          with
          | (Ok crashes_to_index, st3) =>
              match flush crashes_to_index with
              | Some batch =>
                  index_crashes ext cfg (get_index_for_date py cfg d)
                    batch st3
              | None => (Ok tt, st3)
              end
          | (Raise e, st3) => (Raise e, st3)
          end
      | (Raise e, w2) =>
          (Raise e,
           {| world := w2; calls := calls st ++ opening_calls py cfg d |})
      end
  | (Raise e, w1) =>
      (Raise e,
       {| world := w1;
          calls := calls st ++
                   [LoggerInfo "backfilling crashes for %s"
                      (strftime py d "%y%m%d");
                    CreateIndex (get_index_for_date py cfg d)] |})
  end.
Proof.
  unfold backfill_day, bind, log, call, opening_calls. simpl.
  destruct (create_index ext (get_index_for_date py cfg d) (world st))
    as [[[]|e] w1]; simpl.
  - destruct (get_list_of_processed_json_for_date ext
                (strftime py d "%y%m%d") 5 w1) as [[reports|e] w2]; simpl.
    + rewrite <- !app_assoc. simpl.
      destruct (index_reports py dtu ext cfg (get_index_for_date py cfg d)
                  reports [] _) as [[pending|e] st3]; [|done].
      by destruct (flush pending).
    + by rewrite <- !app_assoc.
  - by rewrite <- !app_assoc.
Qed.

(** Calls are only ever added to the log. *)
Lemma index_crashes_extends es_index batch st :
  calls (snd (index_crashes ext cfg es_index batch st)) =
  calls st ++ [bulk_call cfg es_index batch].
Proof.
  unfold index_crashes, call.
  by destruct (bulk_index ext es_index (elasticsearch_doctype cfg) batch
                 "uuid" (world st)).
Qed.

Lemma index_reports_extends es_index reports : ∀ pending st,
  ∃ evs, calls (snd (index_reports py dtu ext cfg es_index reports
                       pending st)) = calls st ++ evs.
Proof.
  induction reports as [|report rest IH]; intros pending st.
  - exists []. simpl. by rewrite app_nil_r.
  - rewrite index_reports_cons.
    destruct (json_loads py report) as [decoded|e];
      [|exists []; simpl; by rewrite app_nil_r].
    destruct (format_dates_in_crash dtu decoded) as [crash|e];
      [|exists []; simpl; by rewrite app_nil_r].
    destruct (fst (offer (index_doc_number cfg) pending crash))
      as [batch|]; [|apply IH].
    pose proof (index_crashes_extends es_index batch st) as Hc.
    destruct (index_crashes ext cfg es_index batch st) as [[[]|e] st'];
      simpl in Hc.
    + destruct (IH (snd (offer (index_doc_number cfg) pending crash)) st')
        as [evs ->].
      rewrite Hc, <- app_assoc. by eexists.
    + simpl. rewrite Hc. by eexists.
Qed.

(** Whatever the name of the index, present or not, the day asks for its
    creation: the request is the second call of the day. *)
Lemma backfill_day_requests_index d st :
  ∃ rest,
    calls (snd (backfill_day py dtu ext cfg d st)) =
    calls st ++
    LoggerInfo "backfilling crashes for %s" (strftime py d "%y%m%d")
    :: CreateIndex (get_index_for_date py cfg d) :: rest.
Proof.
  rewrite backfill_day_eq.
  destruct (create_index ext (get_index_for_date py cfg d) (world st))
    as [[[]|e] w1]; [|by eexists].
  destruct (get_list_of_processed_json_for_date ext
              (strftime py d "%y%m%d") 5 w1) as [[reports|e] w2];
    [|by eexists].
  destruct (index_reports_extends (get_index_for_date py cfg d) reports []
              {| world := w2; calls := calls st ++ opening_calls py cfg d |})
    as [evs Hevs].
  destruct (index_reports py dtu ext cfg (get_index_for_date py cfg d)
              reports [] _) as [[pending|e] st3]; simpl in Hevs.
  - destruct (flush pending) as [batch|].
    + rewrite index_crashes_extends, Hevs, <- !app_assoc. by eexists.
    + simpl. rewrite Hevs, <- !app_assoc. by eexists.
  - simpl. rewrite Hevs, <- !app_assoc. by eexists.
Qed.

(** A day whose reports are all processed without error, on an index
    that accepts every call: the calls of the day are the three opening
    ones and one bulk write for each list of [batches_of_day]. *)
Lemma backfill_day_ok d st reports crashes :
  index_accepts ext →
  (∀ w, fst (get_list_of_processed_json_for_date ext
               (strftime py d "%y%m%d") 5 w) = Ok reports) →
  Forall2 (λ report crash, processed py dtu report = Ok crash)
    reports crashes →
  ∃ w,
    backfill_day py dtu ext cfg d st =
    (Ok tt,
     {| world := w;
        calls := calls st ++ opening_calls py cfg d ++
                 map (bulk_call cfg (get_index_for_date py cfg d))
                   (batches_of_day (index_doc_number cfg) crashes) |}).
Proof.
  intros Hacc Hget Hall. rewrite backfill_day_eq.
  pose proof (proj1 Hacc (get_index_for_date py cfg d) (world st)) as Hc.
  destruct (create_index ext (get_index_for_date py cfg d) (world st))
    as [r1 w1]. simpl in Hc. subst r1.
  specialize (Hget w1).
  destruct (get_list_of_processed_json_for_date ext
              (strftime py d "%y%m%d") 5 w1) as [r2 w2].
  simpl in Hget. subst r2.
  destruct (index_reports_ok py dtu ext cfg (get_index_for_date py cfg d)
              reports crashes Hacc Hall []
              {| world := w2; calls := calls st ++ opening_calls py cfg d |})
    as [w3 ->].
  unfold batches_of_day.
  destruct (offer_all (index_doc_number cfg) [] crashes)
    as [batches final]. simpl.
  destruct (flush final) as [batch|].
  - destruct (index_crashes_ok ext cfg (get_index_for_date py cfg d) batch
                {| world := w3;
                   calls := (calls st ++ opening_calls py cfg d) ++
                            map (bulk_call cfg (get_index_for_date py cfg d))
                              batches |} Hacc) as [w4 ->].
    exists w4. simpl. by rewrite map_app, <- !app_assoc.
  - exists w3. by rewrite app_nil_r, <- !app_assoc.
Qed.

Lemma for_days_S {T : Type} (body : date → T → result unit * T) n d s :
  for_days body (S n) d s =
  match body d s with
  | (Ok _, s') =>
      match sub_one_day d with
      | Ok d' => for_days body n d' s'
      | Raise e => (Raise e, s')
      end
  | (Raise e, s') => (Raise e, s')
  end.
Proof. reflexivity. Qed.

(** An error raised in the body leaves the loop at once. *)
Lemma for_days_raise {T : Type} (body : date → T → result unit * T)
    n d s e s' :
  body d s = (Raise e, s') →
  for_days body (S n) d s = (Raise e, s').
Proof. intros H. by rewrite for_days_S, H. Qed.

Lemma main_raise st e st' :
  0 < duration cfg →
  backfill_day py dtu ext cfg (end_date cfg) st = (Raise e, st') →
  main py dtu ext cfg st = (Raise e, st').
Proof.
  intros Hpos Hday. unfold main, bind.
  destruct (Z.to_nat (duration cfg)) as [|n] eqn:Hn; [lia|].
  by rewrite (for_days_raise _ n _ _ _ _ Hday).
Qed.

End DayFacts.

Lemma indexed_app evs1 evs2 : indexed (evs1 ++ evs2) = indexed evs1 ++ indexed evs2.
Proof. unfold indexed. by rewrite map_app, concat_app. Qed.

Lemma indexed_bulk_calls cfg es_index batches :
  indexed (map (bulk_call cfg es_index) batches) = concat batches.
Proof.
  unfold indexed. induction batches as [|b batches IH]; simpl; [done|].
  by rewrite IH.
Qed.

Lemma sample_index_accepts hbase : index_accepts (Sample.ext hbase).
Proof. split; by intros. Qed.

(** C10, as the code has it.  For a day whose reports all decode to a
    crash and have their dates formatted without an error, on an index
    that accepts every call, the day ends normally and the crashes handed
    to the bulk writes of the day, taken in the order of the calls, are
    exactly the processed crashes of the day in the order the reports
    were fetched. *)
Theorem day_indexes_every_crash {W : Type} (py : pylib) (dtu : datetimeutil)
    (ext : clients W) (cfg : config) (d : date) (st : state W)
    (reports : list string) (crashes : list record) :
  index_accepts ext →
  (∀ w, fst (get_list_of_processed_json_for_date ext
               (strftime py d "%y%m%d") 5 w) = Ok reports) →
  Forall2 (λ report crash, processed py dtu report = Ok crash)
    reports crashes →
  ∃ st' evs,
    backfill_day py dtu ext cfg d st = (Ok tt, st') ∧
    calls st' = calls st ++ evs ∧
    indexed evs = crashes.
Proof.
  intros Hacc Hget Hall.
  destruct (backfill_day_ok py dtu ext cfg d st reports crashes
              Hacc Hget Hall) as [w Hday].
  eexists _, _. split; [exact Hday|]. split; [reflexivity|].
  rewrite indexed_app, indexed_bulk_calls, batches_of_day_concat.
  reflexivity.
Qed.

Lemma day_indexes_every_crash_witness :
  ∃ st' evs,
    backfill_day Sample.py Sample.dtu (Sample.ext Sample.hbase)
      (Sample.cfg Sample.march_10 2 1 (Some "socorro%Y%m%d"))
      Sample.march_10 Sample.start = (Ok tt, st') ∧
    calls st' = calls Sample.start ++ evs ∧
    indexed evs = [Sample.crash1; Sample.crash2; Sample.crash3].
Proof.
  apply (day_indexes_every_crash Sample.py Sample.dtu
           (Sample.ext Sample.hbase)
           (Sample.cfg Sample.march_10 2 1 (Some "socorro%Y%m%d"))
           Sample.march_10 Sample.start
           [Sample.raw1; Sample.raw2; Sample.raw3]).
  - apply sample_index_accepts.
  - intros w. reflexivity.
  - repeat constructor; vm_compute; reflexivity.
Defined.

(** C10, as the claim has it, fails.  The three reports of 2024-03-10 all
    decode and are formatted, but the index refuses the first bulk write:
    the day ends there with the error, the third crash is never handed to
    a bulk write and the index holds no crash at all.  And on a day whose
    four reports all decode, the third holding a number on which the
    helpers raise [OverflowError], the day ends with that error and no
    crash is handed to a bulk write. *)
Lemma day_indexes_counterexample :
  Forall2 (λ report crash, processed Sample.py Sample.dtu report = Ok crash)
    [Sample.raw1; Sample.raw2; Sample.raw3]
    [Sample.crash1; Sample.crash2; Sample.crash3] ∧
  backfill_day Sample.py Sample.dtu (Faulty.ext 1 Sample.hbase)
    (Sample.cfg Sample.march_10 2 1 (Some "socorro%Y%m%d"))
    Sample.march_10 Sample.start
  = (Raise (Exception "ElasticHttpError"),
     {| world := {| Sample.indices := [Some "socorro20240310"];
                    Sample.documents := [] |};
        calls := [LoggerInfo "backfilling crashes for %s" "240310";
                  CreateIndex (Some "socorro20240310");
                  GetListOfProcessedJsonForDate "240310" 5;
                  BulkIndex (Some "socorro20240310") "crash_reports"
                    [Sample.crash1; Sample.crash2] "uuid"] |}) ∧
  indexed
    (calls (snd (backfill_day Sample.py Sample.dtu
                   (Faulty.ext 1 Sample.hbase)
                   (Sample.cfg Sample.march_10 2 1 (Some "socorro%Y%m%d"))
                   Sample.march_10 Sample.start)))
  ≠ [Sample.crash1; Sample.crash2; Sample.crash3] ∧
  Forall (λ report, ∃ decoded, json_loads Faulty.py report = Ok decoded)
    [Sample.raw1; Sample.raw2; Faulty.raw4; Sample.raw3] ∧
  backfill_day Faulty.py Faulty.dtu (Sample.ext Faulty.hbase_number)
    (Sample.cfg Sample.march_10 2 1 (Some "socorro%Y%m%d"))
    Sample.march_10 Sample.start
  = (Raise OverflowError,
     {| world := {| Sample.indices := [Some "socorro20240310"];
                    Sample.documents := [] |};
        calls := [LoggerInfo "backfilling crashes for %s" "240310";
                  CreateIndex (Some "socorro20240310");
                  GetListOfProcessedJsonForDate "240310" 5] |}).
Proof.
  split; [repeat constructor; vm_compute; reflexivity|].
  split; [vm_compute; reflexivity|].
  split; [vm_compute; discriminate|].
  split; [|vm_compute; reflexivity].
  repeat constructor; eexists; vm_compute; reflexivity.
Qed.

(** C4, as the code has it.  When the index option is empty or unset the
    name of the day's index is absent, and the creation of the index is
    requested all the same, with the absent name: the request is the second
    call of every day, whatever the name. *)
Theorem index_requested_every_day {W : Type} (py : pylib)
    (dtu : datetimeutil) (ext : clients W) (cfg : config) (d : date)
    (st : state W) :
  (falsy (elasticsearch_index cfg) = true →
   get_index_for_date py cfg d = None) ∧
  ∃ rest,
    calls (snd (backfill_day py dtu ext cfg d st)) =
    calls st ++
    LoggerInfo "backfilling crashes for %s" (strftime py d "%y%m%d")
    :: CreateIndex (get_index_for_date py cfg d) :: rest.
Proof.
  split.
  - intros H. unfold get_index_for_date. by rewrite H.
  - apply backfill_day_requests_index.
Qed.

Lemma index_requested_every_day_witness :
  (falsy (Some "") = true →
   get_index_for_date Sample.py (Sample.cfg Sample.march_10 1 50 (Some ""))
     Sample.march_10 = None) ∧
  ∃ rest,
    calls (snd (backfill_day Sample.py Sample.dtu (Sample.ext Sample.hbase)
                  (Sample.cfg Sample.march_10 1 50 (Some ""))
                  Sample.march_10 Sample.start)) =
    calls Sample.start ++
    LoggerInfo "backfilling crashes for %s"
      (strftime Sample.py Sample.march_10 "%y%m%d")
    :: CreateIndex
         (get_index_for_date Sample.py
            (Sample.cfg Sample.march_10 1 50 (Some "")) Sample.march_10)
    :: rest.
Proof.
  apply (index_requested_every_day Sample.py Sample.dtu
           (Sample.ext Sample.hbase)
           (Sample.cfg Sample.march_10 1 50 (Some ""))
           Sample.march_10 Sample.start).
Defined.

(** C4, as the claim has it, fails: with an empty index option the name is
    absent and the run still asks the index to create it. *)
Lemma index_requested_counterexample :
  get_index_for_date Sample.py (Sample.cfg Sample.march_10 1 50 (Some ""))
    Sample.march_10 = None ∧
  calls (snd (main Sample.py Sample.dtu (Sample.ext Sample.hbase)
                (Sample.cfg Sample.march_10 1 50 (Some "")) Sample.start))
  = [LoggerInfo "backfilling crashes for %s" "240310";
     CreateIndex None;
     GetListOfProcessedJsonForDate "240310" 5;
     BulkIndex None "crash_reports"
       [Sample.crash1; Sample.crash2; Sample.crash3] "uuid"].
Proof. split; vm_compute; reflexivity. Qed.

(** C9, as the code has it.  The reports of a day are requested once, with
    [number_of_retries = 5]; when that request raises, the error leaves the
    loop over the days at once, whatever the number of days still to do: the
    failed request is the last call of the run, and [main] raises the same
    error when the day is the first one. *)
Theorem fetch_failure_stops_run {W : Type} (py : pylib) (dtu : datetimeutil)
    (ext : clients W) (cfg : config) (d : date) (st : state W) (n : nat)
    (w1 w2 : W) (e : exn) :
  create_index ext (get_index_for_date py cfg d) (world st) = (Ok tt, w1) →
  get_list_of_processed_json_for_date ext (strftime py d "%y%m%d") 5 w1
  = (Raise e, w2) →
  for_days (backfill_day py dtu ext cfg) (S n) d st =
  (Raise e,
   {| world := w2;
      calls := calls st ++
               [LoggerInfo "backfilling crashes for %s"
                  (strftime py d "%y%m%d");
                CreateIndex (get_index_for_date py cfg d);
                GetListOfProcessedJsonForDate (strftime py d "%y%m%d") 5] |})
  ∧ (d = end_date cfg → 0 < duration cfg →
     main py dtu ext cfg st =
     (Raise e,
      {| world := w2; calls := calls st ++ opening_calls py cfg d |})).
Proof.
  intros Hcreate Hget.
  assert (backfill_day py dtu ext cfg d st =
          (Raise e,
           {| world := w2; calls := calls st ++ opening_calls py cfg d |}))
    as Hday.
  { by rewrite backfill_day_eq, Hcreate, Hget. }
  split.
  - by apply for_days_raise.
  - intros -> Hpos. by apply main_raise.
Qed.

Lemma fetch_failure_stops_run_witness :
  for_days
    (backfill_day Sample.py Sample.dtu (Sample.ext Sample.hbase_down)
       (Sample.cfg Sample.march_10 2 1 (Some "socorro%Y%m%d")))
    2 Sample.march_10 Sample.start =
  (Raise (Exception "FatalException"),
   {| world := {| Sample.indices := [Some "socorro20240310"];
                  Sample.documents := [] |};
      calls := calls Sample.start ++
               [LoggerInfo "backfilling crashes for %s"
                  (strftime Sample.py Sample.march_10 "%y%m%d");
                CreateIndex
                  (get_index_for_date Sample.py
                     (Sample.cfg Sample.march_10 2 1 (Some "socorro%Y%m%d"))
                     Sample.march_10);
                GetListOfProcessedJsonForDate
                  (strftime Sample.py Sample.march_10 "%y%m%d") 5] |})
  ∧ (Sample.march_10
     = end_date (Sample.cfg Sample.march_10 2 1 (Some "socorro%Y%m%d")) →
     0 < duration (Sample.cfg Sample.march_10 2 1 (Some "socorro%Y%m%d")) →
     main Sample.py Sample.dtu (Sample.ext Sample.hbase_down)
       (Sample.cfg Sample.march_10 2 1 (Some "socorro%Y%m%d")) Sample.start =
     (Raise (Exception "FatalException"),
      {| world := {| Sample.indices := [Some "socorro20240310"];
                     Sample.documents := [] |};
         calls := calls Sample.start ++
                  opening_calls Sample.py
                    (Sample.cfg Sample.march_10 2 1 (Some "socorro%Y%m%d"))
                    Sample.march_10 |})).
Proof.
  apply (fetch_failure_stops_run Sample.py Sample.dtu
           (Sample.ext Sample.hbase_down)
           (Sample.cfg Sample.march_10 2 1 (Some "socorro%Y%m%d"))
           Sample.march_10 Sample.start 1
           {| Sample.indices := [Some "socorro20240310"];
              Sample.documents := [] |}
           {| Sample.indices := [Some "socorro20240310"];
              Sample.documents := [] |}
           (Exception "FatalException")).
  - vm_compute. reflexivity.
  - vm_compute. reflexivity.
Defined.

(** C9, as the claim has it, fails: the source gives up on 2024-03-10, the
    first of two days, and the run ends there with the error; nothing is
    asked for 2024-03-09, whose report is never fetched. *)
Lemma fetch_failure_counterexample :
  main Sample.py Sample.dtu (Sample.ext Sample.hbase_down)
    (Sample.cfg Sample.march_10 2 1 (Some "socorro%Y%m%d")) Sample.start
  = (Raise (Exception "FatalException"),
     {| world := {| Sample.indices := [Some "socorro20240310"];
                    Sample.documents := [] |};
        calls := [LoggerInfo "backfilling crashes for %s" "240310";
                  CreateIndex (Some "socorro20240310");
                  GetListOfProcessedJsonForDate "240310" 5] |}).
Proof. vm_compute. reflexivity. Qed.

(** C2, as the claim has it, fails: with threshold 1, offering two crashes
    hands over no list, where the claim wants exactly one of size 2.  In
    the run, the loop over two reports ends with both crashes pending and
    no bulk write made. *)
Lemma offer_threshold_counterexample :
  offer_all 1 [] [10%nat; 20%nat] = ([], [10%nat; 20%nat]) ∧
  ¬ (∃ b : list nat,
       fst (offer_all 1 [] [10%nat; 20%nat]) = [b] ∧ length b = 2%nat) ∧
  index_reports Sample.py Sample.dtu (Sample.ext Sample.hbase)
    (Sample.cfg Sample.march_10 2 1 (Some "socorro%Y%m%d"))
    (Some "socorro20240310") [Sample.raw1; Sample.raw2] [] Sample.start
  = (Ok [Sample.crash1; Sample.crash2], Sample.start).
Proof.
  split; [reflexivity|]. split.
  - intros (b & Hb & _). discriminate Hb.
  - vm_compute. reflexivity.
Qed.

(** C3, as the code has it.  A report that does not decode is not set
    aside: the error [json.loads] raises leaves the loop over the reports,
    the day and the loop over the days at once.  The run ends in the state
    reached before that report was read: the crashes still pending are not
    indexed, the reports after it are not read and no later day is
    started. *)
Theorem malformed_report_stops_run {W : Type} (py : pylib)
    (dtu : datetimeutil) (ext : clients W) (cfg : config) (d : date)
    (st st' : state W) (n : nat) (w1 w2 : W)
    (before after : list string) (report : string)
    (pending : list record) (e : exn) :
  create_index ext (get_index_for_date py cfg d) (world st) = (Ok tt, w1) →
  get_list_of_processed_json_for_date ext (strftime py d "%y%m%d") 5 w1
  = (Ok (before ++ report :: after), w2) →
  index_reports py dtu ext cfg (get_index_for_date py cfg d) before []
    {| world := w2; calls := calls st ++ opening_calls py cfg d |}
  = (Ok pending, st') →
  json_loads py report = Raise e →
  for_days (backfill_day py dtu ext cfg) (S n) d st = (Raise e, st') ∧
  (d = end_date cfg → 0 < duration cfg →
   main py dtu ext cfg st = (Raise e, st')).
Proof.
  intros Hcreate Hget Hbefore Hbad.
  assert (backfill_day py dtu ext cfg d st = (Raise e, st')) as Hday.
  { rewrite backfill_day_eq, Hcreate, Hget, index_reports_app, Hbefore.
    by rewrite (index_reports_malformed py dtu ext cfg _ _ _ _ _ e Hbad). }
  split.
  - by apply for_days_raise.
  - intros -> Hpos. by apply main_raise.
Qed.

Lemma malformed_report_stops_run_witness :
  for_days
    (backfill_day Sample.py Sample.dtu (Sample.ext Sample.hbase_malformed)
       (Sample.cfg Sample.march_10 2 1 (Some "socorro%Y%m%d")))
    2 Sample.march_10 Sample.start =
  (Raise ValueError,
   {| world := {| Sample.indices := [Some "socorro20240310"];
                  Sample.documents := [] |};
      calls := calls Sample.start ++
               opening_calls Sample.py
                 (Sample.cfg Sample.march_10 2 1 (Some "socorro%Y%m%d"))
                 Sample.march_10 |})
  ∧ (Sample.march_10
     = end_date (Sample.cfg Sample.march_10 2 1 (Some "socorro%Y%m%d")) →
     0 < duration (Sample.cfg Sample.march_10 2 1 (Some "socorro%Y%m%d")) →
     main Sample.py Sample.dtu (Sample.ext Sample.hbase_malformed)
       (Sample.cfg Sample.march_10 2 1 (Some "socorro%Y%m%d")) Sample.start =
     (Raise ValueError,
      {| world := {| Sample.indices := [Some "socorro20240310"];
                     Sample.documents := [] |};
         calls := calls Sample.start ++
                  opening_calls Sample.py
                    (Sample.cfg Sample.march_10 2 1 (Some "socorro%Y%m%d"))
                    Sample.march_10 |})).
Proof.
  apply (malformed_report_stops_run Sample.py Sample.dtu
           (Sample.ext Sample.hbase_malformed)
           (Sample.cfg Sample.march_10 2 1 (Some "socorro%Y%m%d"))
           Sample.march_10 Sample.start _ 1
           {| Sample.indices := [Some "socorro20240310"];
              Sample.documents := [] |}
           {| Sample.indices := [Some "socorro20240310"];
              Sample.documents := [] |}
           [Sample.raw1] [Sample.raw3] Sample.malformed
           [Sample.crash1] ValueError).
  - vm_compute. reflexivity.
  - vm_compute. reflexivity.
  - vm_compute. reflexivity.
  - vm_compute. reflexivity.
Defined.

(** C3, as the claim has it, fails: the second of the three reports of
    2024-03-10 is malformed, and the run of two days ends there with a
    [ValueError].  Nothing was indexed, not even the first report, which
    had decoded; the third report and the day 2024-03-09 were never
    reached. *)
Lemma malformed_report_counterexample :
  main Sample.py Sample.dtu (Sample.ext Sample.hbase_malformed)
    (Sample.cfg Sample.march_10 2 1 (Some "socorro%Y%m%d")) Sample.start
  = (Raise ValueError,
     {| world := {| Sample.indices := [Some "socorro20240310"];
                    Sample.documents := [] |};
        calls := [LoggerInfo "backfilling crashes for %s" "240310";
                  CreateIndex (Some "socorro20240310");
                  GetListOfProcessedJsonForDate "240310" 5] |}).
Proof. vm_compute. reflexivity. Qed.

(** C1. The run of two days ending on 2024-03-10 with threshold 1, where
    the source has three reports for 2024-03-10 and none for 2024-03-09,
    all three being processed without error and the index accepting every
    call: [main] returns 0 and its calls are, in order, the three opening
    calls of 2024-03-10 (one request for the index), a bulk write of the
    first two crashes, a bulk write of the third, and the three opening
    calls of 2024-03-09 (one request for the index) with no bulk write.
    That makes two requests for an index and two bulk writes, of sizes 2
    and 1. *)
Theorem scenario_two_days {W : Type} (py : pylib) (dtu : datetimeutil)
    (ext : clients W) (cfg : config) (st : state W)
    (r1 r2 r3 : string) (c1 c2 c3 : record) :
  end_date cfg = Calendar.ymd2ord 2024 3 10 →
  duration cfg = 2 →
  index_doc_number cfg = 1 →
  index_accepts ext →
  (∀ w, fst (get_list_of_processed_json_for_date ext
               (strftime py (Calendar.ymd2ord 2024 3 10) "%y%m%d") 5 w)
        = Ok [r1; r2; r3]) →
  (∀ w, fst (get_list_of_processed_json_for_date ext
               (strftime py (Calendar.ymd2ord 2024 3 9) "%y%m%d") 5 w)
        = Ok []) →
  processed py dtu r1 = Ok c1 →
  processed py dtu r2 = Ok c2 →
  processed py dtu r3 = Ok c3 →
  ∃ w evs,
    main py dtu ext cfg st =
    (Ok 0, {| world := w; calls := calls st ++ evs |}) ∧
    evs =
      [LoggerInfo "backfilling crashes for %s"
         (strftime py (Calendar.ymd2ord 2024 3 10) "%y%m%d");
       CreateIndex (get_index_for_date py cfg (Calendar.ymd2ord 2024 3 10));
       GetListOfProcessedJsonForDate
         (strftime py (Calendar.ymd2ord 2024 3 10) "%y%m%d") 5;
       BulkIndex (get_index_for_date py cfg (Calendar.ymd2ord 2024 3 10))
         (elasticsearch_doctype cfg) [c1; c2] "uuid";
       BulkIndex (get_index_for_date py cfg (Calendar.ymd2ord 2024 3 10))
         (elasticsearch_doctype cfg) [c3] "uuid";
       LoggerInfo "backfilling crashes for %s"
         (strftime py (Calendar.ymd2ord 2024 3 9) "%y%m%d");
       CreateIndex (get_index_for_date py cfg (Calendar.ymd2ord 2024 3 9));
       GetListOfProcessedJsonForDate
         (strftime py (Calendar.ymd2ord 2024 3 9) "%y%m%d") 5] ∧
    length (List.filter is_create evs) = 2%nat ∧
    map (λ ev, length (bulk_docs ev)) (List.filter is_bulk evs)
    = [2%nat; 1%nat].
Proof.
  intros Hend Hdur Hthr Hacc Hget10 Hget9 H1 H2 H3.
  unfold main, bind. rewrite Hend, Hdur.
  change (Z.to_nat 2) with 2%nat.
  rewrite for_days_S.
  destruct (backfill_day_ok py dtu ext cfg (Calendar.ymd2ord 2024 3 10) st
              [r1; r2; r3] [c1; c2; c3] Hacc Hget10) as [wa ->].
  { repeat constructor; assumption. }
  replace (sub_one_day (Calendar.ymd2ord 2024 3 10))
    with (Ok (A:=date) (Calendar.ymd2ord 2024 3 9)) by reflexivity.
  cbv beta iota. rewrite for_days_S.
  match goal with
  | |- context [backfill_day py dtu ext cfg _ ?s] =>
      destruct (backfill_day_ok py dtu ext cfg (Calendar.ymd2ord 2024 3 9) s
                  [] [] Hacc Hget9) as [wb ->]; [constructor|]
  end.
  replace (sub_one_day (Calendar.ymd2ord 2024 3 9))
    with (Ok (A:=date) (Calendar.ymd2ord 2024 3 8)) by reflexivity.
  exists wb. eexists. split; [|split; [reflexivity|split; reflexivity]].
  rewrite Hthr. simpl. unfold ret.
  rewrite <- !app_assoc. reflexivity.
Qed.

Lemma scenario_two_days_witness :
  ∃ w evs,
    main Sample.py Sample.dtu (Sample.ext Sample.hbase)
      (Sample.cfg Sample.march_10 2 1 (Some "socorro%Y%m%d")) Sample.start =
    (Ok 0, {| world := w; calls := calls Sample.start ++ evs |}) ∧
    evs =
      [LoggerInfo "backfilling crashes for %s"
         (strftime Sample.py (Calendar.ymd2ord 2024 3 10) "%y%m%d");
       CreateIndex
         (get_index_for_date Sample.py
            (Sample.cfg Sample.march_10 2 1 (Some "socorro%Y%m%d"))
            (Calendar.ymd2ord 2024 3 10));
       GetListOfProcessedJsonForDate
         (strftime Sample.py (Calendar.ymd2ord 2024 3 10) "%y%m%d") 5;
       BulkIndex
         (get_index_for_date Sample.py
            (Sample.cfg Sample.march_10 2 1 (Some "socorro%Y%m%d"))
            (Calendar.ymd2ord 2024 3 10))
         (elasticsearch_doctype
            (Sample.cfg Sample.march_10 2 1 (Some "socorro%Y%m%d")))
         [Sample.crash1; Sample.crash2] "uuid";
       BulkIndex
         (get_index_for_date Sample.py
            (Sample.cfg Sample.march_10 2 1 (Some "socorro%Y%m%d"))
            (Calendar.ymd2ord 2024 3 10))
         (elasticsearch_doctype
            (Sample.cfg Sample.march_10 2 1 (Some "socorro%Y%m%d")))
         [Sample.crash3] "uuid";
       LoggerInfo "backfilling crashes for %s"
         (strftime Sample.py (Calendar.ymd2ord 2024 3 9) "%y%m%d");
       CreateIndex
         (get_index_for_date Sample.py
            (Sample.cfg Sample.march_10 2 1 (Some "socorro%Y%m%d"))
            (Calendar.ymd2ord 2024 3 9));
       GetListOfProcessedJsonForDate
         (strftime Sample.py (Calendar.ymd2ord 2024 3 9) "%y%m%d") 5] ∧
    length (List.filter is_create evs) = 2%nat ∧
    map (λ ev, length (bulk_docs ev)) (List.filter is_bulk evs)
    = [2%nat; 1%nat].
Proof.
  apply (scenario_two_days Sample.py Sample.dtu (Sample.ext Sample.hbase)
           (Sample.cfg Sample.march_10 2 1 (Some "socorro%Y%m%d"))
           Sample.start Sample.raw1 Sample.raw2 Sample.raw3).
  - reflexivity.
  - reflexivity.
  - reflexivity.
  - apply sample_index_accepts.
  - intros w. reflexivity.
  - intros w. reflexivity.
  - vm_compute. reflexivity.
  - vm_compute. reflexivity.
  - vm_compute. reflexivity.
Defined.

(** The same run, computed: the day keys, the index names and the world
    the sample index is left in. *)
Example scenario_two_days_run :
  main Sample.py Sample.dtu (Sample.ext Sample.hbase)
    (Sample.cfg Sample.march_10 2 1 (Some "socorro%Y%m%d")) Sample.start
  = (Ok 0,
     {| world :=
          {| Sample.indices :=
               [Some "socorro20240310"; Some "socorro20240309"];
             Sample.documents :=
               [(Some "socorro20240310", Sample.crash1);
                (Some "socorro20240310", Sample.crash2);
                (Some "socorro20240310", Sample.crash3)] |};
        calls :=
          [LoggerInfo "backfilling crashes for %s" "240310";
           CreateIndex (Some "socorro20240310");
           GetListOfProcessedJsonForDate "240310" 5;
           BulkIndex (Some "socorro20240310") "crash_reports"
             [Sample.crash1; Sample.crash2] "uuid";
           BulkIndex (Some "socorro20240310") "crash_reports"
             [Sample.crash3] "uuid";
           LoggerInfo "backfilling crashes for %s" "240309";
           CreateIndex (Some "socorro20240309");
           GetListOfProcessedJsonForDate "240309" 5] |}).
Proof. vm_compute. reflexivity. Qed.

(** ** The days of a run *)

Lemma sub_one_day_ok (d : date) :
  2 ≤ d → d ≤ MAXORDINAL + 1 → sub_one_day d = Ok (d - 1).
Proof.
  intros Hlo Hhi. unfold sub_one_day, date_add_days. simpl.
  replace (d + -1) with (d - 1) by lia.
  destruct (Z.ltb_spec 0 (d - 1)); [|lia].
  destruct (Z.leb_spec (d - 1) MAXORDINAL); [done|lia].
Qed.

(** The day before 0001-01-01 does not exist. *)
Lemma sub_one_day_first : sub_one_day 1 = Raise OverflowError.
Proof. reflexivity. Qed.

(** On 0001-01-01 the loop runs its body and then raises, whatever the
    number of turns left. *)
Lemma for_days_first_day {T : Type} (body : date → T → result unit * T)
    (n : nat) (s s' : T) :
  body 1 s = (Ok tt, s') →
  for_days body (S n) 1 s = (Raise OverflowError, s').
Proof. intros H. by rewrite for_days_S, H, sub_one_day_first. Qed.

(** The days noted by [days], from any day that leaves room for them. *)
Lemma days_from (n : nat) : ∀ (d : date) (acc : list date),
  Z.of_nat n ≤ d → d ≤ MAXORDINAL →
  snd (for_days (λ d ds, (Ok tt, ds ++ [d])) n d acc) =
  acc ++ map (λ i : nat, d - Z.of_nat i) (seq 0 n).
Proof.
  induction n as [|n IH]; intros d acc Hn Hd.
  - simpl. by rewrite app_nil_r.
  - rewrite for_days_S.
    destruct (Z.eq_dec d 1) as [->|Hd1].
    + assert (n = 0%nat) as -> by lia. rewrite sub_one_day_first. done.
    + rewrite sub_one_day_ok by lia.
      rewrite IH by lia. rewrite <- app_assoc. simpl. do 2 f_equal.
      * f_equal. lia.
      * rewrite <- seq_shift, map_map. apply map_ext. intros i. lia.
Qed.

Lemma days_from_ok (n : nat) : ∀ (d : date) (acc : list date),
  Z.of_nat n < d → d ≤ MAXORDINAL →
  fst (for_days (λ d ds, (Ok tt, ds ++ [d])) n d acc) = Ok tt.
Proof.
  induction n as [|n IH]; intros d acc Hn Hd; [done|].
  rewrite for_days_S, sub_one_day_ok by lia. apply IH; lia.
Qed.

Lemma days_acc (n : nat) : ∀ (d : date) (acc : list date),
  for_days (λ d ds, (Ok tt, ds ++ [d])) n d acc =
  (fst (for_days (λ d ds, (Ok tt, ds ++ [d])) n d []),
   acc ++ snd (for_days (λ d ds, (Ok tt, ds ++ [d])) n d [])).
Proof.
  induction n as [|n IH]; intros d acc.
  - simpl. by rewrite app_nil_r.
  - rewrite !for_days_S. destruct (sub_one_day d) as [d'|e]; [|done].
    rewrite (IH d' (acc ++ [d])), (IH d' ([] ++ [d])).
    simpl. by rewrite <- app_assoc.
Qed.

(** The loop of [main] runs its body on the days [days] notes, in that
    order, and ends as [days] ends unless the body raised before. *)
Lemma for_days_over_days {T : Type} (body : date → T → result unit * T)
    (n : nat) : ∀ (d : date) (s : T),
  for_days body n d s =
  match over_days body (snd (for_days (λ d ds, (Ok tt, ds ++ [d])) n d []))
          s with
  | (Ok _, s') => (fst (for_days (λ d ds, (Ok tt, ds ++ [d])) n d []), s')
  | (Raise e, s') => (Raise e, s')
  end.
Proof.
  induction n as [|n IH]; intros d s; [done|].
  rewrite !for_days_S. destruct (sub_one_day d) as [d'|e0].
  - rewrite (days_acc n d' ([] ++ [d])). simpl.
    destruct (body d s) as [[[]|e] s']; [apply IH|done].
  - simpl. by destruct (body d s) as [[[]|e] s'].
Qed.

(** ** The name of the index of a day *)

(** ['%' in index] holds exactly of the strings that have a [%]
    somewhere. *)
Lemma has_percent_spec (t : string) :
  has_percent t = true ↔ ∃ a b, t = a +:+ String "%" b.
Proof.
  induction t as [|c t IH]; simpl.
  - split; [done|]. intros (a & b & H). by destruct a.
  - destruct (Ascii.eqb_spec c "%") as [->|Hc]; simpl.
    + split; [|done]. intros _. by exists EmptyString, t.
    + rewrite IH. split.
      * intros (a & b & ->). by exists (String c a), b.
      * intros (a & b & H). destruct a as [|c' a]; simpl in H.
        -- injection H as -> _. done.
        -- injection H as _ ->. by exists a, b.
Qed.

Lemma falsy_spec (index : option string) :
  falsy index = true ↔ index = None ∨ index = Some EmptyString.
Proof.
  destruct index as [s|]; simpl.
  - destruct (String.eqb_spec s EmptyString) as [->|Hne].
    + split; [by right|done].
    + split; [done|]. intros [H|[= H]]; done.
  - split; [by left|done].
Qed.

(** C8, as the code has it.  The name of the index of a day is absent
    when the index option is unset or empty; it is the option itself when
    the option is not empty and has no [%] character anywhere; and when
    the option has a [%] character it is the option formatted by
    [strftime] for the day, whatever follows the [%]: a directive other
    than a date one, such as [%%], is replaced too.  The name depends on
    the day and the option only, and the function has no error of its own
    to raise. *)
Theorem get_index_for_date_cases (py : pylib) (cfg : config) (day : date) :
  (elasticsearch_index cfg = None ∨
   elasticsearch_index cfg = Some EmptyString →
   get_index_for_date py cfg day = None) ∧
  (∀ t, elasticsearch_index cfg = Some t → t ≠ EmptyString →
        (∀ a b, t ≠ a +:+ String "%" b) →
        get_index_for_date py cfg day = Some t) ∧
  (∀ a b, elasticsearch_index cfg = Some (a +:+ String "%" b) →
          get_index_for_date py cfg day
          = Some (strftime py day (a +:+ String "%" b))) ∧
  (∀ cfg', elasticsearch_index cfg' = elasticsearch_index cfg →
           get_index_for_date py cfg' day = get_index_for_date py cfg day).
Proof.
  unfold get_index_for_date. repeat split.
  - intros H. apply falsy_spec in H. by rewrite H.
  - intros t -> Hne Hp.
    destruct (falsy (Some t)) eqn:Hf.
    { apply falsy_spec in Hf as [Hf|[= Hf]]; done. }
    destruct (has_percent t) eqn:Hpt; [|done].
    apply has_percent_spec in Hpt as (a & b & ->). by destruct (Hp a b).
  - intros a b ->.
    destruct (falsy (Some (a +:+ String "%" b))) eqn:Hf.
    { apply falsy_spec in Hf as [Hf|[= Hf]]; [done|]. by destruct a. }
    assert (has_percent (a +:+ String "%" b) = true) as ->; [|done].
    apply has_percent_spec. by exists a, b.
  - by intros cfg' ->.
Qed.

Lemma get_index_for_date_cases_witness :
  (Some "socorro%Y%m%d" = None ∨ Some "socorro%Y%m%d" = Some EmptyString →
   get_index_for_date Sample.py
     (Sample.cfg Sample.march_10 2 1 (Some "socorro%Y%m%d")) Sample.march_10
   = None) ∧
  (∀ t, Some "socorro%Y%m%d" = Some t → t ≠ EmptyString →
        (∀ a b, t ≠ a +:+ String "%" b) →
        get_index_for_date Sample.py
          (Sample.cfg Sample.march_10 2 1 (Some "socorro%Y%m%d"))
          Sample.march_10 = Some t) ∧
  (∀ a b, Some "socorro%Y%m%d" = Some (a +:+ String "%" b) →
          get_index_for_date Sample.py
            (Sample.cfg Sample.march_10 2 1 (Some "socorro%Y%m%d"))
            Sample.march_10
          = Some (strftime Sample.py Sample.march_10
                    (a +:+ String "%" b))) ∧
  (∀ cfg', elasticsearch_index cfg' = Some "socorro%Y%m%d" →
           get_index_for_date Sample.py cfg' Sample.march_10 =
           get_index_for_date Sample.py
             (Sample.cfg Sample.march_10 2 1 (Some "socorro%Y%m%d"))
             Sample.march_10).
Proof.
  apply (get_index_for_date_cases Sample.py
           (Sample.cfg Sample.march_10 2 1 (Some "socorro%Y%m%d"))
           Sample.march_10).
Defined.

(** C8, as the claim has it, fails: the option [a%%b] holds no date
    placeholder (its name is the same on every day), yet the name is not
    the option itself, since [strftime] turns [%%] into [%]. *)
Lemma get_index_for_date_counterexample :
  get_index_for_date Sample.py
    (Sample.cfg Sample.march_10 2 1 (Some "a%%b")) Sample.march_10
  = Some "a%b" ∧
  get_index_for_date Sample.py
    (Sample.cfg Sample.march_10 2 1 (Some "a%%b")) Sample.march_9
  = Some "a%b" ∧
  get_index_for_date Sample.py
    (Sample.cfg Sample.march_10 2 1 (Some "a%%b")) Sample.march_10
  ≠ Some "a%%b".
Proof. repeat split; try (vm_compute; reflexivity). discriminate. Qed.

(** The three cases on 2024-03-10. *)
Example get_index_for_date_samples :
  get_index_for_date Sample.py (Sample.cfg Sample.march_10 2 1 None)
    Sample.march_10 = None ∧
  get_index_for_date Sample.py (Sample.cfg Sample.march_10 2 1 (Some ""))
    Sample.march_10 = None ∧
  get_index_for_date Sample.py
    (Sample.cfg Sample.march_10 2 1 (Some "socorro")) Sample.march_10
  = Some "socorro" ∧
  get_index_for_date Sample.py
    (Sample.cfg Sample.march_10 2 1 (Some "socorro%Y%m%d")) Sample.march_10
  = Some "socorro20240310".
Proof. repeat split; vm_compute; reflexivity. Qed.

(** * Further properties *)

(** ** Errors that leave [format_dates_in_crash] *)

Section FormatDatesErrors.

Context (dtu : datetimeutil).

(** An error that leaves the loop over the keys was raised by the helpers
    on the value of one of these keys, and is of a class the loop does not
    catch. *)
Lemma format_attrs_raise_inv attrs : ∀ (r : record) e,
  NoDup attrs →
  (∀ k, k ∈ attrs → is_Some (r !! k)) →
  format_attrs dtu attrs r = Raise e →
  ∃ k v, k ∈ attrs ∧ r !! k = Some v ∧
         date_string_of dtu v = Raise e ∧ not_a_date e = false.
Proof.
  induction attrs as [|attr rest IH]; intros r e Hnd Hin; [done|].
  destruct (Hin attr) as [v Hv]; [by left|].
  pose proof (NoDup_cons_1_1 _ _ Hnd) as Hfresh.
  pose proof (NoDup_cons_1_2 _ _ Hnd) as Hnd'.
  simpl. unfold format_attr. rewrite Hv.
  destruct (date_string_of dtu v) as [s|e0] eqn:Hs.
  - intros Hrest.
    destruct (IH (<[attr := VStr s]> r) e Hnd') as (k & u & Hk & Hu & Hr);
      [|done|].
    { intros k Hk. rewrite lookup_insert_ne; [|by intros ->].
      apply Hin. by right. }
    exists k, u. split; [by right|]. split; [|done].
    rewrite lookup_insert_ne in Hu; [done|by intros ->].
  - destruct (not_a_date e0) eqn:Hcaught.
    + intros Hrest.
      destruct (IH r e Hnd') as (k & u & Hk & Hu & Hr); [|done|].
      { intros k Hk. apply Hin. by right. }
      exists k, u. split; [by right|done].
    + intros [= <-]. exists attr, v. split; [by left|done].
Qed.

(** When the loop over the keys returns, the helpers raised nothing it
    does not catch on the values of these keys. *)
Lemma format_attrs_ok_inv attrs : ∀ (r r' : record),
  NoDup attrs →
  (∀ k, k ∈ attrs → is_Some (r !! k)) →
  format_attrs dtu attrs r = Ok r' →
  ∀ k v, k ∈ attrs → r !! k = Some v → date_or_not dtu v.
Proof.
  induction attrs as [|attr rest IH]; intros r r' Hnd Hin Hok k v Hk Hv.
  { by apply elem_of_nil in Hk. }
  destruct (Hin attr) as [u Hu]; [by left|].
  pose proof (NoDup_cons_1_1 _ _ Hnd) as Hfresh.
  pose proof (NoDup_cons_1_2 _ _ Hnd) as Hnd'.
  simpl in Hok. unfold format_attr in Hok. rewrite Hu in Hok.
  apply elem_of_cons in Hk as [->|Hk].
  - rewrite Hu in Hv. injection Hv as <-. intros e He.
    rewrite He in Hok. by destruct (not_a_date e).
  - assert (k ≠ attr) as Hne by (by intros ->).
    destruct (date_string_of dtu u) as [s|e0] eqn:Hs.
    + apply (IH (<[attr := VStr s]> r) r' Hnd') with (k := k);
        [|done|done|].
      * intros k' Hk'. rewrite lookup_insert_ne; [|by intros ->].
        apply Hin. by right.
      * by rewrite lookup_insert_ne.
    + destruct (not_a_date e0); [|done].
      apply (IH r r' Hnd') with (k := k); [|done|done|done].
      intros k' Hk'. apply Hin. by right.
Qed.

Lemma keys_of_record (r : record) k :
  k ∈ (map_to_list r).*1 ↔ is_Some (r !! k).
Proof.
  split.
  - intros Hk. apply list_elem_of_fmap in Hk as ([k' v] & -> & Hkv).
    apply elem_of_map_to_list in Hkv. by exists v.
  - intros [v Hv]. apply list_elem_of_fmap. exists (k, v).
    split; [done|]. by apply elem_of_map_to_list.
Qed.

End FormatDatesErrors.

(** X1. An error raised by [format_dates_in_crash] is one the helpers
    raised on the value of a field of the crash, of a class outside the
    [except] clause; in particular the lookup of a key never fails. *)
Theorem format_dates_error_origin (dtu : datetimeutil) (r : record)
    (e : exn) :
  format_dates_in_crash dtu r = Raise e →
  ∃ k v, r !! k = Some v ∧ date_string_of dtu v = Raise e ∧
         not_a_date e = false.
Proof.
  intros H.
  destruct (format_attrs_raise_inv dtu (map_to_list r).*1 r e)
    as (k & v & _ & Hv & He & Hc); [| |exact H|by exists k, v].
  - apply NoDup_fst_map_to_list.
  - intros k Hk. by apply keys_of_record.
Qed.

Lemma format_dates_error_origin_witness :
  ∃ k v, Faulty.crash_with_number !! k = Some v ∧
         date_string_of Faulty.dtu v = Raise OverflowError ∧
         not_a_date OverflowError = false.
Proof.
  apply (format_dates_error_origin Faulty.dtu Faulty.crash_with_number
           OverflowError).
  vm_compute. reflexivity.
Defined.

(** X2. Whenever [format_dates_in_crash] returns, the dict it returns has
    in each field the formatted value of that field, that is the
    canonical text when the helpers read the old value as a date and the
    old value itself when they raised; the keys are the same. *)
Theorem format_dates_result (dtu : datetimeutil) (r r' : record) :
  format_dates_in_crash dtu r = Ok r' →
  r' = formatted dtu <$> r ∧
  dom r' = dom r ∧
  (∀ k v, r !! k = Some v →
     (∃ s, date_string_of dtu v = Ok s ∧ r' !! k = Some (VStr s)) ∨
     (∃ e, date_string_of dtu v = Raise e ∧ not_a_date e = true ∧
           r' !! k = Some v)).
Proof.
  intros H.
  assert (∀ k v, r !! k = Some v → date_or_not dtu v) as Hsafe.
  { intros k v Hv.
    apply (format_attrs_ok_inv dtu (map_to_list r).*1 r r'
             (NoDup_fst_map_to_list r)) with (k := k); [|done| |done].
    - intros k' Hk'. by apply keys_of_record.
    - apply keys_of_record. by exists v. }
  rewrite (format_dates_in_crash_ok dtu r Hsafe) in H.
  injection H as <-. split; [done|]. split; [apply dom_fmap_L|].
  intros k v Hv. rewrite lookup_fmap, Hv. simpl.
  destruct (date_string_of dtu v) as [s|e] eqn:Hs.
  - left. exists s. by rewrite (formatted_ok _ _ _ Hs).
  - right. exists e. rewrite (formatted_raise _ _ _ Hs).
    split; [done|]. split; [|done]. by apply (Hsafe k v Hv).
Qed.

Lemma format_dates_result_witness :
  Sample.crash1 = formatted Sample.dtu <$>
                    Sample.crash "c1" (VStr "2024-03-10 01:02:03") ∧
  dom Sample.crash1 = dom (Sample.crash "c1" (VStr "2024-03-10 01:02:03")) ∧
  (∀ k v, Sample.crash "c1" (VStr "2024-03-10 01:02:03") !! k = Some v →
     (∃ s, date_string_of Sample.dtu v = Ok s ∧
           Sample.crash1 !! k = Some (VStr s)) ∨
     (∃ e, date_string_of Sample.dtu v = Raise e ∧ not_a_date e = true ∧
           Sample.crash1 !! k = Some v)).
Proof.
  apply (format_dates_result Sample.dtu
           (Sample.crash "c1" (VStr "2024-03-10 01:02:03")) Sample.crash1).
  vm_compute. reflexivity.
Defined.

(** X3. One field on which the helpers raise an error of a class outside
    the [except] clause is enough for [format_dates_in_crash] to raise:
    no dict is returned, and the error that comes out is again of such a
    class. *)
Theorem format_dates_uncaught (dtu : datetimeutil) (r : record)
    (k : string) (v : value) (e : exn) :
  r !! k = Some v →
  date_string_of dtu v = Raise e →
  not_a_date e = false →
  ∃ e', format_dates_in_crash dtu r = Raise e' ∧ not_a_date e' = false.
Proof.
  intros Hv He Hc.
  destruct (format_dates_in_crash dtu r) as [r'|e'] eqn:Hr.
  - exfalso.
    assert (date_or_not dtu v) as Hsafe.
    { apply (format_attrs_ok_inv dtu (map_to_list r).*1 r r'
               (NoDup_fst_map_to_list r)) with (k := k); [|done| |done].
      - intros k' Hk'. by apply keys_of_record.
      - apply keys_of_record. by exists v. }
    specialize (Hsafe e He). congruence.
  - exists e'. split; [done|].
    destruct (format_attrs_raise_inv dtu (map_to_list r).*1 r e')
      as (k' & v' & _ & _ & _ & Hc'); [| |exact Hr|done].
    + apply NoDup_fst_map_to_list.
    + intros k' Hk'. by apply keys_of_record.
Qed.

Lemma format_dates_uncaught_witness :
  ∃ e', format_dates_in_crash Faulty.dtu Faulty.crash_with_number = Raise e'
        ∧ not_a_date e' = false.
Proof.
  apply (format_dates_uncaught Faulty.dtu Faulty.crash_with_number
           "uptime" (VInt 1200) OverflowError).
  - vm_compute. reflexivity.
  - reflexivity.
  - reflexivity.
Defined.

(** ** The lists a day is indexed in *)

Section BatchShape.

Context {A : Type}.
Implicit Types (t : Z) (pending crashes : list A) (r : A).

Lemma flush_cons r pending : flush (r :: pending) = Some (r :: pending).
Proof. reflexivity. Qed.

Lemma batches_of_day_nil t : batches_of_day t ([] : list A) = [].
Proof. reflexivity. Qed.

(** A day of at most [t + 1] crashes, and at least one, is one list. *)
Lemma batches_of_day_short t crashes :
  crashes ≠ [] →
  Z.of_nat (length crashes) ≤ t + 1 →
  batches_of_day t crashes = [crashes].
Proof.
  intros Hne Hlen. unfold batches_of_day.
  rewrite (offer_all_under t crashes []) by (simpl; lia).
  by destruct crashes as [|r crashes].
Qed.

(** With a threshold of zero or more, the loop started on an empty list
    goes on as the loop started on the first crash alone. *)
Lemma offer_all_first t r crashes :
  0 ≤ t →
  offer_all t [] (r :: crashes) = offer_all t [r] crashes.
Proof.
  intros Ht. simpl. rewrite offer_under by (simpl; lia). simpl.
  by destruct (offer_all t [r] crashes).
Qed.

(** The sizes along the loop: every list handed over holds exactly
    [t + 1] crashes, and the list left holds at most [t + 1], and at
    least one as soon as there was a crash. *)
Lemma offer_all_sizes t crashes : ∀ pending,
  0 ≤ t →
  Z.of_nat (length pending) ≤ t + 1 →
  Forall (λ b, Z.of_nat (length b) = t + 1)
    (fst (offer_all t pending crashes)) ∧
  Z.of_nat (length (snd (offer_all t pending crashes))) ≤ t + 1 ∧
  (pending ++ crashes ≠ [] → snd (offer_all t pending crashes) ≠ []).
Proof.
  induction crashes as [|r crashes IH]; intros pending Ht Hlen.
  - simpl. split; [constructor|]. split; [done|]. by rewrite app_nil_r.
  - simpl.
    destruct (Z.lt_ge_cases t (Z.of_nat (length pending))) as [H|H].
    + rewrite offer_over by done.
      destruct (IH [r] Ht) as (Hall & Hfin & Hne); [simpl; lia|].
      destruct (offer_all t [r] crashes) as [batches final]. simpl in *.
      split; [constructor; [lia|done]|]. split; [done|].
      intros _. by apply Hne.
    + rewrite offer_under by done.
      destruct (IH (pending ++ [r]) Ht) as (Hall & Hfin & Hne).
      { rewrite length_app. simpl. lia. }
      destruct (offer_all t (pending ++ [r]) crashes) as [batches final].
      simpl in *. split; [done|]. split; [done|].
      intros _. apply Hne. by destruct pending.
Qed.

(** With a threshold below zero every offer hands the list over: first
    the empty list, then each crash alone. *)
Lemma offer_all_negative t crashes : ∀ pending,
  t < 0 →
  fst (offer_all t pending crashes)
    ++ [snd (offer_all t pending crashes)]
  = pending :: map (λ r, [r]) crashes.
Proof.
  induction crashes as [|r crashes IH]; intros pending Ht; [done|].
  simpl. rewrite offer_over by lia.
  specialize (IH [r] Ht).
  destruct (offer_all t [r] crashes) as [batches final]. simpl in *.
  by rewrite IH.
Qed.

Lemma offer_all_negative_last t crashes : ∀ pending,
  t < 0 → pending ++ crashes ≠ [] →
  snd (offer_all t pending crashes) ≠ [].
Proof.
  induction crashes as [|r crashes IH]; intros pending Ht Hne.
  - simpl. by rewrite app_nil_r in Hne.
  - simpl. rewrite offer_over by lia.
    specialize (IH [r] Ht).
    destruct (offer_all t [r] crashes) as [batches final]. simpl in *.
    by apply IH.
Qed.

End BatchShape.

(** A day that starts with [t + 1] crashes: these are its first list,
    and the other lists are those of the crashes after them. *)
Lemma batches_of_day_cut {A : Type} (t : Z) (first rest : list A) :
  0 ≤ t →
  Z.of_nat (length first) = t + 1 →
  batches_of_day t (first ++ rest) = first :: batches_of_day t rest.
Proof.
  intros Ht Hlen. destruct rest as [|r rest].
  - rewrite app_nil_r, batches_of_day_nil.
    apply batches_of_day_short; [|lia].
    intros ->. simpl in Hlen. lia.
  - unfold batches_of_day. rewrite offer_all_app.
    rewrite (offer_all_under t first []) by (simpl; lia).
    rewrite offer_all_first by done. simpl.
    rewrite offer_over by lia.
    by destruct (offer_all t [r] rest) as [batches final].
Qed.

(** X4. With a threshold [t >= 0], the lists a day is indexed in are cut
    from the front: when the day has [t + 1] crashes or more, the first
    list is the first [t + 1] crashes and the others are the lists of the
    remaining crashes taken as a day of their own. *)
Theorem batches_of_day_chunk {A : Type} (t : Z) (crashes : list A) :
  0 ≤ t →
  t + 1 ≤ Z.of_nat (length crashes) →
  batches_of_day t crashes =
  take (Z.to_nat (t + 1)) crashes
  :: batches_of_day t (drop (Z.to_nat (t + 1)) crashes).
Proof.
  intros Ht Hlen.
  rewrite <- (take_drop (Z.to_nat (t + 1)) crashes) at 1.
  apply batches_of_day_cut; [done|].
  rewrite length_take. lia.
Qed.

Lemma batches_of_day_chunk_witness :
  batches_of_day 1 [10%nat; 20%nat; 30%nat; 40%nat; 50%nat] =
  take (Z.to_nat (1 + 1)) [10%nat; 20%nat; 30%nat; 40%nat; 50%nat]
  :: batches_of_day 1
       (drop (Z.to_nat (1 + 1)) [10%nat; 20%nat; 30%nat; 40%nat; 50%nat]).
Proof.
  apply (batches_of_day_chunk 1 [10%nat; 20%nat; 30%nat; 40%nat; 50%nat]).
  - lia.
  - simpl. lia.
Defined.

(** X5. With a threshold [t >= 0], no list a day is indexed in is empty
    and none holds more than [t + 1] crashes; every list but the last
    holds exactly [t + 1]. *)
Theorem batches_of_day_sizes {A : Type} (t : Z) (crashes : list A) :
  0 ≤ t →
  Forall (λ b, 1 ≤ Z.of_nat (length b) ≤ t + 1) (batches_of_day t crashes) ∧
  (∀ (i : nat) b, (S i < length (batches_of_day t crashes))%nat →
     batches_of_day t crashes !! i = Some b →
     Z.of_nat (length b) = t + 1).
Proof.
  intros Ht. unfold batches_of_day.
  destruct (offer_all_sizes t crashes [] Ht) as (Hall & Hfin & Hne);
    [simpl; lia|].
  destruct (offer_all t [] crashes) as [batches final]. simpl in *.
  split.
  - apply Forall_app. split.
    + eapply Forall_impl; [exact Hall|]. simpl. intros b Hb. lia.
    + destruct final as [|r final]; [constructor|].
      rewrite flush_cons. constructor; [|constructor]. simpl in *. lia.
  - intros i b Hi Hb.
    assert (i < length batches)%nat as Hi'.
    { rewrite length_app in Hi.
      destruct (flush final); simpl in Hi; lia. }
    rewrite lookup_app_l in Hb by done.
    by apply (Forall_lookup_1 _ _ _ _ Hall Hb).
Qed.

Lemma batches_of_day_sizes_witness :
  Forall (λ b, 1 ≤ Z.of_nat (length b) ≤ 1 + 1)
    (batches_of_day 1 [10%nat; 20%nat; 30%nat]) ∧
  (∀ (i : nat) b,
     (S i < length (batches_of_day 1 [10%nat; 20%nat; 30%nat]))%nat →
     batches_of_day 1 [10%nat; 20%nat; 30%nat] !! i = Some b →
     Z.of_nat (length b) = 1 + 1).
Proof.
  apply (batches_of_day_sizes 1 [10%nat; 20%nat; 30%nat]). lia.
Defined.

(** X6. With a threshold [t >= 0], a day of [n] crashes is indexed in
    [n / (t + 1)] lists, rounded up. *)
Theorem batches_of_day_count {A : Type} (t : Z) (crashes : list A) :
  0 ≤ t →
  Z.of_nat (length (batches_of_day t crashes))
  = (Z.of_nat (length crashes) + t) / (t + 1).
Proof.
  intros Ht.
  remember (length crashes) as n eqn:Hn.
  revert crashes Hn.
  induction (lt_wf n) as [n _ IH]. intros crashes Hn.
  destruct (Z.le_gt_cases (Z.of_nat n) (t + 1)) as [Hshort|Hlong].
  - destruct crashes as [|r crashes].
    + subst n. rewrite batches_of_day_nil. simpl.
      symmetry. apply Z.div_small. lia.
    + rewrite batches_of_day_short by (subst n; done).
      simpl in Hn. simpl length. change (Z.of_nat 1) with 1.
      apply (Z.div_unique _ _ 1 (Z.of_nat n - 1)); lia.
  - rewrite <- (take_drop (Z.to_nat (t + 1)) crashes).
    rewrite batches_of_day_cut; [|done|rewrite length_take; lia].
    simpl length. rewrite Nat2Z.inj_succ.
    rewrite (IH (length (drop (Z.to_nat (t + 1)) crashes)));
      [|rewrite length_drop; lia|done].
    rewrite length_drop, <- Hn.
    replace (Z.of_nat n + t) with
      (Z.of_nat (n - Z.to_nat (t + 1)) + t + 1 * (t + 1)) by lia.
    rewrite Z.div_add by lia. lia.
Qed.

Lemma batches_of_day_count_witness :
  Z.of_nat (length (batches_of_day 1 [10%nat; 20%nat; 30%nat]))
  = (Z.of_nat (length [10%nat; 20%nat; 30%nat]) + 1) / (1 + 1).
Proof.
  apply (batches_of_day_count 1 [10%nat; 20%nat; 30%nat]). lia.
Defined.

(** X7. With a threshold below zero the test of line 98 holds on every
    turn, on the empty list too: a day that has crashes is indexed by a
    bulk write of no crash at all, followed by one bulk write for each
    crash alone. *)
Theorem batches_of_day_negative {A : Type} (t : Z) (r : A)
    (crashes : list A) :
  t < 0 →
  batches_of_day t (r :: crashes) = [] :: map (λ x, [x]) (r :: crashes).
Proof.
  intros Ht. unfold batches_of_day.
  pose proof (offer_all_negative t (r :: crashes) [] Ht) as Hall.
  pose proof (offer_all_negative_last t (r :: crashes) [] Ht) as Hlast.
  destruct (offer_all t [] (r :: crashes)) as [batches final].
  simpl fst in *. simpl snd in *.
  destruct final as [|x final]; [by destruct Hlast|].
  by rewrite flush_cons.
Qed.

Lemma batches_of_day_negative_witness :
  batches_of_day (-1) (10%nat :: [20%nat; 30%nat])
  = [] :: map (λ x, [x]) (10%nat :: [20%nat; 30%nat]).
Proof.
  apply (batches_of_day_negative (-1) 10%nat [20%nat; 30%nat]). lia.
Defined.

(** ** The calls of a day and of a run, whatever happens *)

Section RunShape.

Context {W : Type}.
Context (py : pylib) (dtu : datetimeutil) (ext : clients W) (cfg : config).

Implicit Types (st : state W) (d : date) (es_index : option string).

(** The loop over the reports makes bulk writes to the index it is given,
    and no other call. *)
Lemma index_reports_calls es_index reports : ∀ pending st,
  ∃ batches,
    calls (snd (index_reports py dtu ext cfg es_index reports pending st))
    = calls st ++ map (bulk_call cfg es_index) batches.
Proof.
  induction reports as [|report rest IH]; intros pending st.
  - exists []. simpl. by rewrite app_nil_r.
  - rewrite index_reports_cons.
    destruct (json_loads py report) as [decoded|e];
      [|exists []; simpl; by rewrite app_nil_r].
    destruct (format_dates_in_crash dtu decoded) as [crash|e];
      [|exists []; simpl; by rewrite app_nil_r].
    destruct (fst (offer (index_doc_number cfg) pending crash))
      as [batch|]; [|apply IH].
    pose proof (index_crashes_extends ext cfg es_index batch st) as Hc.
    destruct (index_crashes ext cfg es_index batch st) as [[[]|e] st'];
      simpl in Hc.
    + destruct (IH (snd (offer (index_doc_number cfg) pending crash)) st')
        as [batches ->].
      exists (batch :: batches). rewrite Hc, <- app_assoc. done.
    + exists [batch]. simpl. by rewrite Hc.
Qed.

Lemma opening_calls_expected d :
  Forall (expected_call cfg) (opening_calls py cfg d).
Proof. repeat constructor. Qed.

Lemma bulk_calls_expected es_index batches :
  Forall (expected_call cfg) (map (bulk_call cfg es_index) batches).
Proof. apply Forall_forall. intros ev Hev.
  apply list_elem_of_fmap in Hev as (b & -> & _). by split. Qed.

(** The calls of a day, in three parts: two or three of the opening
    calls, then bulk writes to the index of the day. *)
Lemma backfill_day_parts d st :
  ∃ (k : nat) batches,
    calls (snd (backfill_day py dtu ext cfg d st)) =
    calls st ++ take k (opening_calls py cfg d) ++
    map (bulk_call cfg (get_index_for_date py cfg d)) batches ∧
    ((k = 2%nat ∧ batches = []) ∨ k = 3%nat).
Proof.
  rewrite backfill_day_eq.
  destruct (create_index ext (get_index_for_date py cfg d) (world st))
    as [[[]|e] w1].
  2:{ exists 2%nat, []. split; [done|by left]. }
  destruct (get_list_of_processed_json_for_date ext
              (strftime py d "%y%m%d") 5 w1) as [[reports|e] w2].
  2:{ exists 3%nat, []. split; [done|by right]. }
  destruct (index_reports_calls (get_index_for_date py cfg d) reports []
              {| world := w2; calls := calls st ++ opening_calls py cfg d |})
    as [batches Hb].
  destruct (index_reports py dtu ext cfg (get_index_for_date py cfg d)
              reports [] _) as [[pending|e] st3]; simpl in Hb.
  - destruct (flush pending) as [batch|].
    + exists 3%nat, (batches ++ [batch]). split; [|by right].
      rewrite index_crashes_extends, Hb, map_app, <- !app_assoc. done.
    + exists 3%nat, batches. split; [|by right]. simpl.
      rewrite Hb, <- !app_assoc. done.
  - exists 3%nat, batches. split; [|by right]. simpl.
    rewrite Hb, <- !app_assoc. done.
Qed.

Lemma backfill_day_expected d st :
  ∃ evs,
    calls (snd (backfill_day py dtu ext cfg d st)) = calls st ++ evs ∧
    Forall (expected_call cfg) evs.
Proof.
  destruct (backfill_day_parts d st) as (k & batches & -> & _).
  eexists. split; [reflexivity|].
  apply Forall_app. split.
  - apply Forall_take, opening_calls_expected.
  - apply bulk_calls_expected.
Qed.

Lemma for_days_expected n : ∀ d st,
  ∃ evs,
    calls (snd (for_days (backfill_day py dtu ext cfg) n d st))
    = calls st ++ evs ∧
    Forall (expected_call cfg) evs.
Proof.
  induction n as [|n IH]; intros d st.
  - exists []. simpl. by rewrite app_nil_r.
  - rewrite for_days_S.
    destruct (backfill_day_expected d st) as (evs1 & Hc1 & H1).
    destruct (backfill_day py dtu ext cfg d st) as [[[]|e] st'];
      simpl in Hc1; [|by exists evs1].
    destruct (sub_one_day d) as [d'|e]; [|by exists evs1].
    destruct (IH d' st') as (evs2 & -> & H2).
    exists (evs1 ++ evs2). rewrite Hc1, <- app_assoc.
    split; [done|]. by apply Forall_app.
Qed.

Lemma main_eq st :
  main py dtu ext cfg st =
  match for_days (backfill_day py dtu ext cfg) (Z.to_nat (duration cfg))
          (end_date cfg) st with
  | (Ok _, st') => (Ok 0, st')
  | (Raise e, st') => (Raise e, st')
  end.
Proof. reflexivity. Qed.

(** The days of a list, each going well: the log grows by the calls of
    these days, in order. *)
Lemma over_days_ok (reports_of : date → list string)
    (crashes_of : date → list record) ds : ∀ st,
  index_accepts ext →
  (∀ d, d ∈ ds →
     (∀ w, fst (get_list_of_processed_json_for_date ext
                  (strftime py d "%y%m%d") 5 w) = Ok (reports_of d)) ∧
     Forall2 (λ report crash, processed py dtu report = Ok crash)
       (reports_of d) (crashes_of d)) →
  ∃ w,
    over_days (backfill_day py dtu ext cfg) ds st =
    (Ok tt,
     {| world := w;
        calls := calls st ++
                 concat (map (λ d, day_calls py cfg d (crashes_of d)) ds) |}).
Proof.
  induction ds as [|d ds IH]; intros st Hacc Hdays.
  - exists (world st). simpl. rewrite app_nil_r. by destruct st.
  - destruct (Hdays d) as [Hget Hall]; [by left|].
    destruct (backfill_day_ok py dtu ext cfg d st (reports_of d)
                (crashes_of d) Hacc Hget Hall) as [w1 Hday].
    simpl. rewrite Hday.
    destruct (IH {| world := w1;
                    calls := calls st ++ opening_calls py cfg d ++
                             map (bulk_call cfg (get_index_for_date py cfg d))
                               (batches_of_day (index_doc_number cfg)
                                  (crashes_of d)) |} Hacc) as [w ->].
    { intros d' Hd'. apply Hdays. by right. }
    exists w. simpl. unfold day_calls at 2. by rewrite <- !app_assoc.
Qed.

End RunShape.

(** When the loop reaches exactly 0001-01-01 on its last turn, [days]
    ends on the error of the step to the day before. *)
Lemma days_from_overflow (n : nat) : ∀ (d : date) (acc : list date),
  (0 < n)%nat → Z.of_nat n = d → d ≤ MAXORDINAL →
  fst (for_days (λ d ds, (Ok tt, ds ++ [d])) n d acc) = Raise OverflowError.
Proof.
  induction n as [|n IH]; intros d acc Hn Hd Hmax; [lia|].
  rewrite for_days_S.
  destruct (Z.eq_dec d 1) as [->|Hd1].
  - by rewrite sub_one_day_first.
  - rewrite sub_one_day_ok by lia. apply IH; lia.
Qed.

(** What the loop over the reports has handed to the index, whatever
    happened: when it returns, the lists written followed by the list it
    leaves are the list it started with followed by the processed crashes
    of all the reports; when it raises, the lists written are the
    beginning of that. *)
Lemma index_reports_written {W : Type} (py : pylib) (dtu : datetimeutil)
    (ext : clients W) (cfg : config) (es_index : option string)
    (reports : list string) : ∀ (pending : list record) (st : state W),
  ∃ batches crashes,
    calls (snd (index_reports py dtu ext cfg es_index reports pending st))
    = calls st ++ map (bulk_call cfg es_index) batches ∧
    Forall2 (λ report crash, processed py dtu report = Ok crash)
      (take (length crashes) reports) crashes ∧
    match fst (index_reports py dtu ext cfg es_index reports pending st)
    with
    | Ok pending' =>
        length crashes = length reports ∧
        concat batches ++ pending' = pending ++ crashes
    | Raise _ => concat batches `prefix_of` pending ++ crashes
    end.
Proof.
  induction reports as [|report rest IH]; intros pending st.
  - exists [], []. simpl. rewrite !app_nil_r. repeat split. constructor.
  - rewrite index_reports_cons.
    destruct (processed py dtu report) as [crash|e] eqn:Hp.
    2:{ exists [], []. unfold processed in Hp.
        destruct (json_loads py report) as [decoded|e1];
          [rewrite Hp|]; simpl; rewrite !app_nil_r;
          (split; [done|]); (split; [constructor|]); apply prefix_nil. }
    pose proof Hp as Hproc. unfold processed in Hp.
    destruct (json_loads py report) as [decoded|e1]; [|done].
    rewrite Hp.
    destruct (Z.lt_ge_cases (index_doc_number cfg)
                (Z.of_nat (length pending))) as [Hover|Hunder].
    + rewrite offer_over by done. simpl.
      pose proof (index_crashes_extends ext cfg es_index pending st) as Hc.
      destruct (index_crashes ext cfg es_index pending st)
        as [[[]|e] st']; simpl in Hc.
      * destruct (IH [crash] st') as (batches & crashes & Hcalls & Hall & Hres).
        exists (pending :: batches), (crash :: crashes).
        split; [rewrite Hcalls, Hc, <- app_assoc; done|].
        split; [simpl; constructor; [exact Hproc|done]|].
        destruct (fst (index_reports py dtu ext cfg es_index rest [crash] st'))
          as [pending'|e].
        -- destruct Hres as [Hlen Hcat]. split; [simpl; lia|].
           simpl. rewrite <- app_assoc, Hcat. done.
        -- simpl. by apply prefix_app.
      * exists [pending], []. simpl. rewrite !app_nil_r.
        split; [by rewrite Hc|]. split; [constructor|done].
    + rewrite offer_under by done. simpl.
      destruct (IH (pending ++ [crash]) st)
        as (batches & crashes & Hcalls & Hall & Hres).
      exists batches, (crash :: crashes).
      split; [done|].
      split; [simpl; constructor; [exact Hproc|done]|].
      destruct (fst (index_reports py dtu ext cfg es_index rest
                       (pending ++ [crash]) st)) as [pending'|e].
      * destruct Hres as [Hlen Hcat]. split; [simpl; lia|].
        by rewrite Hcat, <- app_assoc.
      * by rewrite <- app_assoc in Hres.
Qed.

(** X8. Once the reports of a day are fetched, and whatever happens next
    (a report that does not decode, a write the index refuses), the calls
    of the day after the three opening ones are bulk writes to the index
    of the day, and the crashes they carry, taken in order, are the
    beginning of the day's processed crashes in the order of the reports:
    none is written twice or out of turn.  When the day ends normally
    they are all of them. *)
Theorem day_writes_in_order {W : Type} (py : pylib) (dtu : datetimeutil)
    (ext : clients W) (cfg : config) (d : date) (st : state W)
    (w1 w2 : W) (reports : list string) :
  create_index ext (get_index_for_date py cfg d) (world st) = (Ok tt, w1) →
  get_list_of_processed_json_for_date ext (strftime py d "%y%m%d") 5 w1
  = (Ok reports, w2) →
  ∃ batches crashes,
    calls (snd (backfill_day py dtu ext cfg d st)) =
    calls st ++ opening_calls py cfg d ++
    map (bulk_call cfg (get_index_for_date py cfg d)) batches ∧
    Forall2 (λ report crash, processed py dtu report = Ok crash)
      (take (length crashes) reports) crashes ∧
    concat batches `prefix_of` crashes ∧
    (fst (backfill_day py dtu ext cfg d st) = Ok tt →
     length crashes = length reports ∧ concat batches = crashes).
Proof.
  intros Hcreate Hget. rewrite backfill_day_eq, Hcreate, Hget.
  destruct (index_reports_written py dtu ext cfg
              (get_index_for_date py cfg d) reports []
              {| world := w2; calls := calls st ++ opening_calls py cfg d |})
    as (batches & crashes & Hcalls & Hall & Hres).
  destruct (index_reports py dtu ext cfg (get_index_for_date py cfg d)
              reports [] _) as [[pending|e] st3]; simpl in Hcalls, Hres.
  - destruct Hres as [Hlen Hcat]. unfold flush.
    destruct pending as [|r pending]; simpl.
    + exists batches, crashes. rewrite app_nil_r in Hcat.
      rewrite Hcalls, <- app_assoc. subst crashes. done.
    + exists (batches ++ [r :: pending]), crashes.
      rewrite index_crashes_extends, Hcalls, map_app, <- !app_assoc.
      rewrite concat_app. simpl. rewrite app_nil_r, Hcat. done.
  - exists batches, crashes. simpl. rewrite Hcalls, <- app_assoc.
    repeat split; done.
Qed.

Lemma day_writes_in_order_witness :
  ∃ batches crashes,
    calls (snd (backfill_day Sample.py Sample.dtu
                  (Faulty.ext 2 Sample.hbase)
                  (Sample.cfg Sample.march_10 2 1 (Some "socorro%Y%m%d"))
                  Sample.march_10 Sample.start)) =
    calls Sample.start ++
    opening_calls Sample.py
      (Sample.cfg Sample.march_10 2 1 (Some "socorro%Y%m%d"))
      Sample.march_10 ++
    map (bulk_call (Sample.cfg Sample.march_10 2 1 (Some "socorro%Y%m%d"))
           (get_index_for_date Sample.py
              (Sample.cfg Sample.march_10 2 1 (Some "socorro%Y%m%d"))
              Sample.march_10)) batches ∧
    Forall2 (λ report crash, processed Sample.py Sample.dtu report = Ok crash)
      (take (length crashes) [Sample.raw1; Sample.raw2; Sample.raw3])
      crashes ∧
    concat batches `prefix_of` crashes ∧
    (fst (backfill_day Sample.py Sample.dtu (Faulty.ext 2 Sample.hbase)
            (Sample.cfg Sample.march_10 2 1 (Some "socorro%Y%m%d"))
            Sample.march_10 Sample.start) = Ok tt →
     length crashes = length [Sample.raw1; Sample.raw2; Sample.raw3] ∧
     concat batches = crashes).
Proof.
  apply (day_writes_in_order Sample.py Sample.dtu
           (Faulty.ext 2 Sample.hbase)
           (Sample.cfg Sample.march_10 2 1 (Some "socorro%Y%m%d"))
           Sample.march_10 Sample.start
           {| Sample.indices := [Some "socorro20240310"];
              Sample.documents := [] |}
           {| Sample.indices := [Some "socorro20240310"];
              Sample.documents := [] |}).
  - vm_compute. reflexivity.
  - vm_compute. reflexivity.
Defined.

(** X9. Whatever the configuration, the clients and the outcome, every
    call a run makes is one of the four of [main] with the arguments
    fixed in its text: the reports of a day are always asked for with
    [number_of_retries=5], and every bulk write uses the configured
    doctype and [id_field='uuid']. *)
Theorem run_calls_expected {W : Type} (py : pylib) (dtu : datetimeutil)
    (ext : clients W) (cfg : config) (st : state W) :
  ∃ evs,
    calls (snd (main py dtu ext cfg st)) = calls st ++ evs ∧
    Forall (expected_call cfg) evs.
Proof.
  rewrite main_eq.
  destruct (for_days_expected py dtu ext cfg (Z.to_nat (duration cfg))
              (end_date cfg) st) as (evs & Hcalls & Hall).
  exists evs. split; [|done].
  by destruct (for_days (backfill_day py dtu ext cfg) _ _ st)
    as [[[]|e] st'].
Qed.

(** X10. A run whose days all go well (the window does not reach
    0001-01-01, the index accepts every call, the reports of each day are
    fetched and processed without error) returns 0, and its calls are
    those of its days one after the other, from the end date backwards:
    for each day the three opening calls, then the bulk writes of the
    day's crashes. *)
Theorem main_ok {W : Type} (py : pylib) (dtu : datetimeutil)
    (ext : clients W) (cfg : config) (st : state W)
    (reports_of : date → list string) (crashes_of : date → list record) :
  valid_date (end_date cfg) →
  duration cfg < end_date cfg →
  index_accepts ext →
  (∀ d, d ∈ snd (days (end_date cfg) (duration cfg)) →
     (∀ w, fst (get_list_of_processed_json_for_date ext
                  (strftime py d "%y%m%d") 5 w) = Ok (reports_of d)) ∧
     Forall2 (λ report crash, processed py dtu report = Ok crash)
       (reports_of d) (crashes_of d)) →
  ∃ w,
    main py dtu ext cfg st =
    (Ok 0,
     {| world := w;
        calls := calls st ++
                 concat (map (λ d, day_calls py cfg d (crashes_of d))
                           (snd (days (end_date cfg) (duration cfg)))) |}).
Proof.
  intros [Hlo Hhi] Hdur Hacc Hdays.
  rewrite main_eq, for_days_over_days.
  destruct (over_days_ok py dtu ext cfg reports_of crashes_of
              (snd (days (end_date cfg) (duration cfg))) st Hacc Hdays)
    as [w Hover].
  unfold days in *. rewrite Hover.
  rewrite days_from_ok by lia. by exists w.
Qed.

Lemma main_ok_witness :
  ∃ w,
    main Sample.py Sample.dtu (Sample.ext Sample.hbase)
      (Sample.cfg Sample.march_10 2 1 (Some "socorro%Y%m%d")) Sample.start =
    (Ok 0,
     {| world := w;
        calls :=
          calls Sample.start ++
          concat
            (map (λ d, day_calls Sample.py
                         (Sample.cfg Sample.march_10 2 1
                            (Some "socorro%Y%m%d")) d
                         (if decide (d = Sample.march_10)
                          then [Sample.crash1; Sample.crash2; Sample.crash3]
                          else []))
               (snd (days
                       (end_date (Sample.cfg Sample.march_10 2 1
                                    (Some "socorro%Y%m%d")))
                       (duration (Sample.cfg Sample.march_10 2 1
                                    (Some "socorro%Y%m%d")))))) |}).
Proof.
  apply (main_ok Sample.py Sample.dtu (Sample.ext Sample.hbase)
           (Sample.cfg Sample.march_10 2 1 (Some "socorro%Y%m%d"))
           Sample.start
           (λ d, if decide (d = Sample.march_10)
                 then [Sample.raw1; Sample.raw2; Sample.raw3] else [])).
  - unfold valid_date. vm_compute. split; discriminate.
  - reflexivity.
  - apply sample_index_accepts.
  - intros d Hd.
    change (d ∈ [Sample.march_10; Sample.march_9]) in Hd.
    apply elem_of_cons in Hd as [->|Hd].
    + split; [intros w; reflexivity|].
      repeat constructor; vm_compute; reflexivity.
    + apply list_elem_of_singleton in Hd as ->.
      split; [intros w; reflexivity|]. constructor.
Defined.

(** X11. The step to the day before is taken after the last day too.  A
    run whose window ends exactly on 0001-01-01 goes through all its days
    and then raises [OverflowError] instead of returning 0, the work of
    the days being done. *)
Theorem main_last_step_overflow {W : Type} (py : pylib)
    (dtu : datetimeutil) (ext : clients W) (cfg : config)
    (st st' : state W) :
  valid_date (end_date cfg) →
  0 < duration cfg →
  duration cfg = end_date cfg →
  over_days (backfill_day py dtu ext cfg)
    (snd (days (end_date cfg) (duration cfg))) st = (Ok tt, st') →
  main py dtu ext cfg st = (Raise OverflowError, st').
Proof.
  intros [Hlo Hhi] Hpos Hdur Hdays.
  rewrite main_eq, for_days_over_days.
  unfold days in Hdays. rewrite Hdays.
  rewrite days_from_overflow; [done|lia|lia|lia].
Qed.

Lemma main_last_step_overflow_witness :
  main Sample.py Sample.dtu (Sample.ext Sample.hbase)
    (Sample.cfg 1 1 1 (Some "socorro")) Sample.start =
  (Raise OverflowError,
   {| world := {| Sample.indices := [Some "socorro"];
                  Sample.documents := [] |};
      calls := [LoggerInfo "backfilling crashes for %s" "010101";
                CreateIndex (Some "socorro");
                GetListOfProcessedJsonForDate "010101" 5] |}).
Proof.
  apply (main_last_step_overflow Sample.py Sample.dtu
           (Sample.ext Sample.hbase) (Sample.cfg 1 1 1 (Some "socorro"))
           Sample.start).
  - unfold valid_date. vm_compute. split; discriminate.
  - reflexivity.
  - reflexivity.
  - vm_compute. reflexivity.
Defined.

(** X12. When the index refuses to create the index of a day, the error
    leaves the run at once: the reports of that day are never asked for,
    and no later day is started. *)
Theorem create_failure_stops_run {W : Type} (py : pylib)
    (dtu : datetimeutil) (ext : clients W) (cfg : config) (d : date)
    (st : state W) (n : nat) (w1 : W) (e : exn) :
  create_index ext (get_index_for_date py cfg d) (world st)
  = (Raise e, w1) →
  for_days (backfill_day py dtu ext cfg) (S n) d st =
  (Raise e,
   {| world := w1;
      calls := calls st ++
               [LoggerInfo "backfilling crashes for %s"
                  (strftime py d "%y%m%d");
                CreateIndex (get_index_for_date py cfg d)] |})
  ∧ (d = end_date cfg → 0 < duration cfg →
     main py dtu ext cfg st =
     (Raise e,
      {| world := w1;
         calls := calls st ++
                  [LoggerInfo "backfilling crashes for %s"
                     (strftime py d "%y%m%d");
                   CreateIndex (get_index_for_date py cfg d)] |})).
Proof.
  intros Hcreate.
  assert (backfill_day py dtu ext cfg d st =
          (Raise e,
           {| world := w1;
              calls := calls st ++
                       [LoggerInfo "backfilling crashes for %s"
                          (strftime py d "%y%m%d");
                        CreateIndex (get_index_for_date py cfg d)] |}))
    as Hday.
  { by rewrite backfill_day_eq, Hcreate. }
  split.
  - by apply for_days_raise.
  - intros -> Hpos. by apply main_raise.
Qed.

Lemma create_failure_stops_run_witness :
  for_days
    (backfill_day Sample.py Sample.dtu (Faulty.ext 10 Sample.hbase)
       (Sample.cfg Sample.march_10 2 1 None))
    2 Sample.march_10 Sample.start =
  (Raise (Exception "ElasticHttpError"),
   {| world := Sample.empty_memory;
      calls := calls Sample.start ++
               [LoggerInfo "backfilling crashes for %s"
                  (strftime Sample.py Sample.march_10 "%y%m%d");
                CreateIndex
                  (get_index_for_date Sample.py
                     (Sample.cfg Sample.march_10 2 1 None)
                     Sample.march_10)] |})
  ∧ (Sample.march_10 = end_date (Sample.cfg Sample.march_10 2 1 None) →
     0 < duration (Sample.cfg Sample.march_10 2 1 None) →
     main Sample.py Sample.dtu (Faulty.ext 10 Sample.hbase)
       (Sample.cfg Sample.march_10 2 1 None) Sample.start =
     (Raise (Exception "ElasticHttpError"),
      {| world := Sample.empty_memory;
         calls := calls Sample.start ++
                  [LoggerInfo "backfilling crashes for %s"
                     (strftime Sample.py Sample.march_10 "%y%m%d");
                   CreateIndex
                     (get_index_for_date Sample.py
                        (Sample.cfg Sample.march_10 2 1 None)
                        Sample.march_10)] |})).
Proof.
  apply (create_failure_stops_run Sample.py Sample.dtu
           (Faulty.ext 10 Sample.hbase)
           (Sample.cfg Sample.march_10 2 1 None)
           Sample.march_10 Sample.start 1 Sample.empty_memory
           (Exception "ElasticHttpError")).
  vm_compute. reflexivity.
Defined.

(** X13. When the index refuses the bulk write made because the pending
    list exceeds the threshold, the error leaves the run at once, with
    that write as its last call: the write is not tried again, the crash
    being processed and the reports after it are dropped, and no later
    day is started. *)
Theorem bulk_failure_stops_run {W : Type} (py : pylib) (dtu : datetimeutil)
    (ext : clients W) (cfg : config) (d : date) (st st' : state W)
    (n : nat) (w1 w2 w3 : W) (before after : list string)
    (report : string) (crash : record) (pending : list record) (e : exn) :
  create_index ext (get_index_for_date py cfg d) (world st) = (Ok tt, w1) →
  get_list_of_processed_json_for_date ext (strftime py d "%y%m%d") 5 w1
  = (Ok (before ++ report :: after), w2) →
  index_reports py dtu ext cfg (get_index_for_date py cfg d) before []
    {| world := w2; calls := calls st ++ opening_calls py cfg d |}
  = (Ok pending, st') →
  processed py dtu report = Ok crash →
  index_doc_number cfg < Z.of_nat (length pending) →
  bulk_index ext (get_index_for_date py cfg d) (elasticsearch_doctype cfg)
    pending "uuid" (world st') = (Raise e, w3) →
  for_days (backfill_day py dtu ext cfg) (S n) d st =
  (Raise e,
   {| world := w3;
      calls := calls st' ++
               [BulkIndex (get_index_for_date py cfg d)
                  (elasticsearch_doctype cfg) pending "uuid"] |}).
Proof.
  intros Hcreate Hget Hbefore Hp Hover Hbulk.
  apply for_days_raise.
  rewrite backfill_day_eq, Hcreate, Hget, index_reports_app, Hbefore.
  rewrite index_reports_cons. unfold processed in Hp.
  destruct (json_loads py report) as [decoded|e1]; [|done].
  rewrite Hp, offer_over by done. simpl.
  unfold index_crashes, call. rewrite Hbulk. done.
Qed.

Lemma bulk_failure_stops_run_witness :
  for_days
    (backfill_day Sample.py Sample.dtu (Faulty.ext 1 Sample.hbase)
       (Sample.cfg Sample.march_10 2 1 (Some "socorro%Y%m%d")))
    2 Sample.march_10 Sample.start =
  (Raise (Exception "ElasticHttpError"),
   {| world := {| Sample.indices := [Some "socorro20240310"];
                  Sample.documents := [] |};
      calls :=
        calls
          {| world := {| Sample.indices := [Some "socorro20240310"];
                         Sample.documents := [] |};
             calls := calls Sample.start ++
                      opening_calls Sample.py
                        (Sample.cfg Sample.march_10 2 1
                           (Some "socorro%Y%m%d")) Sample.march_10 |} ++
        [BulkIndex
           (get_index_for_date Sample.py
              (Sample.cfg Sample.march_10 2 1 (Some "socorro%Y%m%d"))
              Sample.march_10)
           (elasticsearch_doctype
              (Sample.cfg Sample.march_10 2 1 (Some "socorro%Y%m%d")))
           [Sample.crash1; Sample.crash2] "uuid"] |}).
Proof.
  apply (bulk_failure_stops_run Sample.py Sample.dtu
           (Faulty.ext 1 Sample.hbase)
           (Sample.cfg Sample.march_10 2 1 (Some "socorro%Y%m%d"))
           Sample.march_10 Sample.start _ 1
           {| Sample.indices := [Some "socorro20240310"];
              Sample.documents := [] |}
           {| Sample.indices := [Some "socorro20240310"];
              Sample.documents := [] |}
           {| Sample.indices := [Some "socorro20240310"];
              Sample.documents := [] |}
           [Sample.raw1; Sample.raw2] [] Sample.raw3 Sample.crash3).
  - vm_compute. reflexivity.
  - vm_compute. reflexivity.
  - vm_compute. reflexivity.
  - vm_compute. reflexivity.
  - vm_compute. reflexivity.
  - vm_compute. reflexivity.
Defined.

(** X14. An error that leaves [format_dates_in_crash] is not caught in
    [main] either: it ends the run in the state reached before the report
    was read, like a report that does not decode.  The crashes pending are
    not indexed and no later day is started. *)
Theorem format_error_stops_run {W : Type} (py : pylib) (dtu : datetimeutil)
    (ext : clients W) (cfg : config) (d : date) (st st' : state W)
    (n : nat) (w1 w2 : W) (before after : list string) (report : string)
    (decoded : record) (pending : list record) (e : exn) :
  create_index ext (get_index_for_date py cfg d) (world st) = (Ok tt, w1) →
  get_list_of_processed_json_for_date ext (strftime py d "%y%m%d") 5 w1
  = (Ok (before ++ report :: after), w2) →
  index_reports py dtu ext cfg (get_index_for_date py cfg d) before []
    {| world := w2; calls := calls st ++ opening_calls py cfg d |}
  = (Ok pending, st') →
  json_loads py report = Ok decoded →
  format_dates_in_crash dtu decoded = Raise e →
  for_days (backfill_day py dtu ext cfg) (S n) d st = (Raise e, st').
Proof.
  intros Hcreate Hget Hbefore Hjson Hformat.
  apply for_days_raise.
  rewrite backfill_day_eq, Hcreate, Hget, index_reports_app, Hbefore.
  by rewrite index_reports_cons, Hjson, Hformat.
Qed.

Lemma format_error_stops_run_witness :
  for_days
    (backfill_day Faulty.py Faulty.dtu (Sample.ext Faulty.hbase_number)
       (Sample.cfg Sample.march_10 2 1 (Some "socorro%Y%m%d")))
    2 Sample.march_10 Sample.start =
  (Raise OverflowError,
   {| world := {| Sample.indices := [Some "socorro20240310"];
                  Sample.documents := [] |};
      calls := calls Sample.start ++
               opening_calls Faulty.py
                 (Sample.cfg Sample.march_10 2 1 (Some "socorro%Y%m%d"))
                 Sample.march_10 |}).
Proof.
  apply (format_error_stops_run Faulty.py Faulty.dtu
           (Sample.ext Faulty.hbase_number)
           (Sample.cfg Sample.march_10 2 1 (Some "socorro%Y%m%d"))
           Sample.march_10 Sample.start _ 1
           {| Sample.indices := [Some "socorro20240310"];
              Sample.documents := [] |}
           {| Sample.indices := [Some "socorro20240310"];
              Sample.documents := [] |}
           [Sample.raw1; Sample.raw2] [Sample.raw3] Faulty.raw4
           Faulty.crash_with_number [Sample.crash1; Sample.crash2]
           OverflowError).
  - vm_compute. reflexivity.
  - vm_compute. reflexivity.
  - vm_compute. reflexivity.
  - vm_compute. reflexivity.
  - vm_compute. reflexivity.
Defined.

(** X15. The loop of [main] is its body run over the days of [days], in
    that order, and nothing else: the run stops at the first day whose
    body raises, with that error, and otherwise ends as the window ends,
    returning 0 or raising the [OverflowError] of the step before
    0001-01-01. *)
Theorem main_over_days {W : Type} (py : pylib) (dtu : datetimeutil)
    (ext : clients W) (cfg : config) (st : state W) :
  main py dtu ext cfg st =
  match over_days (backfill_day py dtu ext cfg)
          (snd (days (end_date cfg) (duration cfg))) st with
  | (Ok _, st') =>
      (match fst (days (end_date cfg) (duration cfg)) with
       | Ok _ => Ok 0
       | Raise e => Raise e
       end, st')
  | (Raise e, st') => (Raise e, st')
  end.
Proof.
  rewrite main_eq, for_days_over_days. unfold days.
  destruct (over_days (backfill_day py dtu ext cfg) _ st) as [[[]|e] st'];
    [|done].
  by destruct (fst (for_days _ (Z.to_nat (duration cfg)) (end_date cfg) []))
    as [[]|e].
Qed.

(** ** The days a run goes through *)

(** C7, as the code has it.  From an end date that has at least
    [duration - 1] days before it in the calendar of the date class
    (which starts on 0001-01-01, day 1), the days of the run are exactly
    [duration] days, the first being the end date and each next one the
    day before, and [main] is the body of its loop run on these days in
    that order.  It stops at the first day whose body raises, with that
    error, so the days after it are not processed; when no day raises all
    of them are, and [main] returns 0 (or raises [OverflowError] on the
    step before 0001-01-01, when the window ends on that day).  With a
    duration of zero or less no day is processed, no call is made and
    [main] returns 0. *)
Theorem days_window {W : Type} (py : pylib) (dtu : datetimeutil)
    (ext : clients W) (cfg : config) (st : state W) :
  valid_date (end_date cfg) →
  duration cfg ≤ end_date cfg →
  Z.of_nat (length (snd (days (end_date cfg) (duration cfg))))
  = Z.max 0 (duration cfg) ∧
  (∀ i : nat, Z.of_nat i < duration cfg →
     snd (days (end_date cfg) (duration cfg)) !! i
     = Some (end_date cfg - Z.of_nat i)) ∧
  main py dtu ext cfg st =
  match over_days (backfill_day py dtu ext cfg)
          (snd (days (end_date cfg) (duration cfg))) st with
  | (Ok _, st') =>
      (if decide (duration cfg < end_date cfg) then Ok 0
       else Raise OverflowError, st')
  | (Raise e, st') => (Raise e, st')
  end ∧
  (duration cfg ≤ 0 →
   days (end_date cfg) (duration cfg) = (Ok tt, []) ∧
   main py dtu ext cfg st = (Ok 0, st)).
Proof.
  intros [Hlo Hhi] Hdur.
  assert (snd (days (end_date cfg) (duration cfg)) =
          map (λ i : nat, end_date cfg - Z.of_nat i)
            (seq 0 (Z.to_nat (duration cfg)))) as Hdays.
  { unfold days. by rewrite days_from by lia. }
  split; [|split; [|split]].
  - rewrite Hdays, length_map, length_seq. lia.
  - intros i Hi. rewrite Hdays, list_lookup_fmap, lookup_seq_lt by lia.
    done.
  - rewrite main_eq, for_days_over_days. fold (days (end_date cfg) (duration cfg)).
    destruct (over_days (backfill_day py dtu ext cfg)
                (snd (days (end_date cfg) (duration cfg))) st)
      as [[[]|e] st']; [|done].
    unfold days. destruct (decide (duration cfg < end_date cfg)) as [Hlt|Hge].
    + by rewrite days_from_ok by lia.
    + rewrite days_from_overflow; [done|lia|lia|lia].
  - intros Hle. unfold days, main, bind.
    by replace (Z.to_nat (duration cfg)) with 0%nat by lia.
Qed.

Lemma days_window_witness :
  Z.of_nat
    (length
       (snd (days
               (end_date (Sample.cfg Sample.march_10 2 1
                            (Some "socorro%Y%m%d")))
               (duration (Sample.cfg Sample.march_10 2 1
                            (Some "socorro%Y%m%d"))))))
  = Z.max 0 (duration (Sample.cfg Sample.march_10 2 1
                         (Some "socorro%Y%m%d"))) ∧
  (∀ i : nat,
     Z.of_nat i < duration (Sample.cfg Sample.march_10 2 1
                              (Some "socorro%Y%m%d")) →
     snd (days
            (end_date (Sample.cfg Sample.march_10 2 1
                         (Some "socorro%Y%m%d")))
            (duration (Sample.cfg Sample.march_10 2 1
                         (Some "socorro%Y%m%d")))) !! i
     = Some (end_date (Sample.cfg Sample.march_10 2 1
                         (Some "socorro%Y%m%d")) - Z.of_nat i)) ∧
  main Sample.py Sample.dtu (Sample.ext Sample.hbase)
    (Sample.cfg Sample.march_10 2 1 (Some "socorro%Y%m%d")) Sample.start =
  match over_days
          (backfill_day Sample.py Sample.dtu (Sample.ext Sample.hbase)
             (Sample.cfg Sample.march_10 2 1 (Some "socorro%Y%m%d")))
          (snd (days
                  (end_date (Sample.cfg Sample.march_10 2 1
                               (Some "socorro%Y%m%d")))
                  (duration (Sample.cfg Sample.march_10 2 1
                               (Some "socorro%Y%m%d")))))
          Sample.start with
  | (Ok _, st') =>
      (if decide (duration (Sample.cfg Sample.march_10 2 1
                              (Some "socorro%Y%m%d"))
                  < end_date (Sample.cfg Sample.march_10 2 1
                                (Some "socorro%Y%m%d")))
       then Ok 0 else Raise OverflowError, st')
  | (Raise e, st') => (Raise e, st')
  end ∧
  (duration (Sample.cfg Sample.march_10 2 1 (Some "socorro%Y%m%d")) ≤ 0 →
   days (end_date (Sample.cfg Sample.march_10 2 1 (Some "socorro%Y%m%d")))
     (duration (Sample.cfg Sample.march_10 2 1 (Some "socorro%Y%m%d")))
   = (Ok tt, []) ∧
   main Sample.py Sample.dtu (Sample.ext Sample.hbase)
     (Sample.cfg Sample.march_10 2 1 (Some "socorro%Y%m%d")) Sample.start
   = (Ok 0, Sample.start)).
Proof.
  apply (days_window Sample.py Sample.dtu (Sample.ext Sample.hbase)
           (Sample.cfg Sample.march_10 2 1 (Some "socorro%Y%m%d"))
           Sample.start).
  - unfold valid_date. vm_compute. split; discriminate.
  - vm_compute. discriminate.
Defined.

(** C7, as the claim has it, fails.  A run of two days ending on
    0001-01-01, a date like any other, goes through that day only and
    then raises [OverflowError] when it steps to the day before: [main]
    makes the calls of one day.  And a run of two days ending on
    2024-03-10 whose source gives up on the first day makes the calls of
    that day only. *)
Lemma days_window_counterexample :
  valid_date (Calendar.ymd2ord 1 1 1) ∧
  days (Calendar.ymd2ord 1 1 1) 2
  = (Raise OverflowError, [Calendar.ymd2ord 1 1 1]) ∧
  length (snd (days (Calendar.ymd2ord 1 1 1) 2)) ≠ 2%nat ∧
  main Sample.py Sample.dtu (Sample.ext Sample.hbase)
    (Sample.cfg (Calendar.ymd2ord 1 1 1) 2 1 (Some "socorro")) Sample.start
  = (Raise OverflowError,
     {| world := {| Sample.indices := [Some "socorro"];
                    Sample.documents := [] |};
        calls := [LoggerInfo "backfilling crashes for %s" "010101";
                  CreateIndex (Some "socorro");
                  GetListOfProcessedJsonForDate "010101" 5] |}) ∧
  calls (snd (main Sample.py Sample.dtu (Sample.ext Sample.hbase_down)
                (Sample.cfg Sample.march_10 2 1 (Some "socorro"))
                Sample.start))
  = [LoggerInfo "backfilling crashes for %s" "240310";
     CreateIndex (Some "socorro");
     GetListOfProcessedJsonForDate "240310" 5].
Proof.
  split; [|split; [|split; [|split]]].
  - unfold valid_date. vm_compute. split; discriminate.
  - reflexivity.
  - discriminate.
  - vm_compute. reflexivity.
  - vm_compute. reflexivity.
Qed.
